(** * Movie-Recommendation-System: the recommendation and filter core of [git.py]

    Shallow embedding of [recommend], [filter_movies_by_criteria] and
    [fetch_trailer] from [src/git.py].

    Modelling choices:
    - the pickled catalog [movies] is a list of [Movie] records; its pandas
      index is the default [RangeIndex], so the label returned by
      [.index[0]] and the position used by [.iloc] coincide;
    - [similarity] is a list of rows of scores; the scores are only compared
      by [sorted], and are modelled as rationals [Q];
    - Python exceptions are the [Raise] case of a small error monad;
    - [fetch_movie_details] and the per-id trailer link used by the core are
      Section variables: their network responses are outside the model;
    - Python's [str.lower] (Unicode case folding) is a parameter [lower] of
      the filter; [ascii_lower] is one instance, used in examples;
    - the bodies of [fetch_trailer] and [fetch_movie_details] are modelled
      over the decoded JSON response, with integers, floats (as rationals)
      and strings; [repr] of a non-string value is a parameter [py_repr]. *)

From Stdlib Require Import List String Ascii QArith ZArith Lia Sorted Permutation Bool.
Import ListNotations.
Open Scope string_scope.
Set Warnings "-register-all".

(** ** Python exceptions and a small error monad *)

Inductive exc : Type :=
| IndexError
| KeyError
| TypeError
| ValueError
| AttributeError
| RequestError.

Inductive outcome (A : Type) : Type :=
| Ok (a : A)
| Raise (e : exc).
Arguments Ok {A} a.
Arguments Raise {A} e.

Definition bind {A B} (m : outcome A) (k : A -> outcome B) : outcome B :=
  match m with
  | Ok a => k a
  | Raise e => Raise e
  end.

Notation "x <- m ;; k" := (bind m (fun x => k))
  (at level 61, m at next level, right associativity).

Definition of_option {A} (e : exc) (o : option A) : outcome A :=
  match o with
  | Some a => Ok a
  | None => Raise e
  end.

(** [for x in l: out.append(f(x))] where [f] may raise. *)
Fixpoint map_m {A B} (f : A -> outcome B) (l : list A) : outcome (list B) :=
  match l with
  | [] => Ok []
  | x :: t => y <- f x ;; ys <- map_m f t ;; Ok (y :: ys)
  end.

(** ** Python list helpers *)

(** [list(enumerate(l))], starting at index [k]. *)
Fixpoint enumerate_from {A} (k : nat) (l : list A) : list (nat * A) :=
  match l with
  | [] => []
  | x :: t => (k, x) :: enumerate_from (S k) t
  end.

Definition enumerate {A} (l : list A) : list (nat * A) := enumerate_from 0 l.

(** Normalisation of a slice bound, as CPython does for [l[a:b]]. *)
Definition slice_bound (i : Z) (len : nat) : nat :=
  if (i <? 0)%Z then Z.to_nat (Z.max 0 (i + Z.of_nat len))
  else Z.to_nat (Z.min i (Z.of_nat len)).

(** [l[start:stop]] *)
Definition py_slice {A} (l : list A) (start stop : Z) : list A :=
  let a := slice_bound start (List.length l) in
  let b := slice_bound stop (List.length l) in
  firstn (b - a) (skipn a l).

(** [sorted(l, reverse=True, key=lambda x: x[1])]: a stable sort by
    descending score; [reverse=True] keeps equal keys in their original
    order.  Each element is inserted before the first element whose score is
    not larger, so earlier elements stay ahead of later equal ones. *)
Fixpoint insert_desc (x : nat * Q) (l : list (nat * Q)) : list (nat * Q) :=
  match l with
  | [] => [x]
  | y :: t => if Qle_bool (snd y) (snd x) then x :: y :: t
              else y :: insert_desc x t
  end.

Fixpoint sort_desc (l : list (nat * Q)) : list (nat * Q) :=
  match l with
  | [] => []
  | x :: t => insert_desc x (sort_desc t)
  end.

(** ** Data model *)

Record Movie : Type := mk_movie {
  movie_id : Z;
  title : string
}.

(** The Rating returned by [fetch_movie_details]: TMDB's [vote_average]
    number, or the string ['N/A'] (missing field or failed request). *)
Inductive rating : Type :=
| RNum (q : Q)
| RNA.

(** [float(rating)] *)
Definition py_float (r : rating) : outcome Q :=
  match r with
  | RNum q => Ok q
  | RNA => Raise ValueError
  end.

(** The tuple [(poster, genres, rating, cast)] of [fetch_movie_details]. *)
Record details : Type := mk_details {
  d_poster : string;
  d_genres : string;
  d_rating : rating;
  d_cast : string
}.

(** The dictionary appended to [recommendations] / [matched]. *)
Record result : Type := mk_result {
  Title : string;
  Poster : string;
  Genres : string;
  Rating : rating;
  Cast : string;
  Trailer : string
}.

(** [movies[movies['title'] == movie].index[0]]: the first position whose
    title equals [movie]; an empty selection raises [IndexError]. *)
Fixpoint first_index_from (k : nat) (movie : string) (ms : list Movie)
  : outcome nat :=
  match ms with
  | [] => Raise IndexError
  | m :: t => if String.eqb (title m) movie then Ok k
              else first_index_from (S k) movie t
  end.

Section Core.

Variable movies : list Movie.
Variable similarity : list (list Q).
Variable fetch_movie_details : Z -> details.
Variable fetch_trailer : Z -> string.

Definition movie_result (m : Movie) : result :=
  let d := fetch_movie_details (movie_id m) in
  mk_result (title m) (d_poster d) (d_genres d) (d_rating d) (d_cast d)
            (fetch_trailer (movie_id m)).

(** Lines 52-57: the ranked (position, score) pairs selected by [recommend]. *)
Definition recommend_ranked (movie : string) (num_results : Z)
  : outcome (list (nat * Q)) :=
  index <- first_index_from 0 movie movies ;;
  row <- of_option IndexError (nth_error similarity index) ;;
  let distances := sort_desc (enumerate row) in
  Ok (py_slice distances 1 (num_results + 1)).

(** Lines 51-72: [recommend(movie, num_results)]. *)
Definition recommend (movie : string) (num_results : Z) : outcome (list result) :=
  sel <- recommend_ranked movie num_results ;;
  map_m (fun i => m <- of_option IndexError (nth_error movies (fst i)) ;;
                  Ok (movie_result m)) sel.

End Core.

(** ** Strings *)

(** [str.lower()] on ASCII-only text, where it maps exactly [A-Z] to
    [a-z].  Python's [str.lower] folds every cased Unicode letter (with a
    context-dependent final sigma); the filter below takes it as a
    parameter, and [ascii_lower] is the instance used in concrete examples. *)
Definition lower_ascii (c : ascii) : ascii :=
  let n := nat_of_ascii c in
  if (Nat.leb 65 n && Nat.leb n 90)%bool then ascii_of_nat (n + 32)%nat else c.

Fixpoint ascii_lower (s : string) : string :=
  match s with
  | EmptyString => EmptyString
  | String c t => String (lower_ascii c) (ascii_lower t)
  end.

Fixpoint starts_with (p s : string) : bool :=
  match p, s with
  | EmptyString, _ => true
  | String c p', String d s' => Ascii.eqb c d && starts_with p' s'
  | String _ _, EmptyString => false
  end.

(** [sub in s] *)
Fixpoint contains (sub s : string) : bool :=
  starts_with sub s ||
  match s with
  | EmptyString => false
  | String _ s' => contains sub s'
  end.

Section Filter.

(** Python's [str.lower], on text given as its UTF-8 bytes.  For valid
    UTF-8, [sub in s] on code points and [contains] on the bytes agree, as a
    byte match of a non-empty encoded string starts and ends at character
    boundaries. *)
Variable lower : string -> string.
Variable movies : list Movie.
Variable fetch_movie_details : Z -> details.
Variable fetch_trailer : Z -> string.
Variable genre cast : string.
Variable min_rating : Q.
Variable num_results : Z.

(** The body of the [for i in range(len(movies))] loop (lines 76-96) from
    position [i] on, with the list [matched] built so far.  Besides
    [matched], the loop returns the trace of scanned positions: at each of
    them both [fetch_movie_details] and [fetch_trailer] are called. *)
Fixpoint filter_loop (ms : list Movie) (i : nat) (matched : list result)
  : list result * list nat :=
  match ms with
  | [] => (matched, [])
  | m :: rest =>
      let d := fetch_movie_details (movie_id m) in
      let trailer := fetch_trailer (movie_id m) in
      let continue_ := filter_loop rest (S i) matched in
      let '(res, tr) :=
        if contains (lower genre) (lower (d_genres d))
           && contains (lower cast) (lower (d_cast d)) then
          match py_float (d_rating d) with
          | Raise _ => continue_
          | Ok r =>
              if Qle_bool min_rating r then
                let matched' :=
                  (matched ++ [mk_result (title m) (d_poster d) (d_genres d)
                                        (d_rating d) (d_cast d) trailer])%list in
                if (num_results <=? Z.of_nat (List.length matched'))%Z
                then (matched', [])
                else filter_loop rest (S i) matched'
              else continue_
          end
        else continue_ in
      (res, i :: tr)
  end.

(** Lines 74-98: [filter_movies_by_criteria(genre, cast, min_rating,
    num_results)] with its scan trace. *)
Definition filter_movies_by_criteria_traced : list result * list nat :=
  filter_loop movies 0 [].

Definition filter_movies_by_criteria : list result :=
  fst filter_movies_by_criteria_traced.

(** The three predicates of lines 82-84 at catalog position [k]. *)
Definition matches_movie (m : Movie) : bool :=
  let d := fetch_movie_details (movie_id m) in
  contains (lower genre) (lower (d_genres d))
  && contains (lower cast) (lower (d_cast d))
  && match py_float (d_rating d) with
     | Ok r => Qle_bool min_rating r
     | Raise _ => false
     end.

Definition is_match (k : nat) : bool :=
  match nth_error movies k with
  | Some m => matches_movie m
  | None => false
  end.

(** Number of matching movies among the first [n] catalog entries. *)
Definition count_matches (n : nat) : nat :=
  List.length (filter matches_movie (firstn n movies)).

(** The Rating of [m] parses as a number that is at least [0]. *)
Definition rated_nonneg (m : Movie) : bool :=
  match d_rating (fetch_movie_details (movie_id m)) with
  | RNum q => Qle_bool 0 q
  | RNA => false
  end.

End Filter.

(** ** [fetch_trailer] (lines 36-47) over the decoded JSON response *)
Module Trailer.

(** Values produced by [response.json()].  JSON integers decode to [int]
    and other numbers to [float]; a finite float is kept as its rational
    value. *)
Inductive json : Type :=
| JNull
| JBool (b : bool)
| JNum (z : Z)
| JFloat (q : Q)
| JStr (s : string)
| JArr (l : list json)
| JObj (kvs : list (string * json)).

Fixpoint join (sep : string) (l : list string) : string :=
  match l with
  | [] => EmptyString
  | [x] => x
  | x :: t => x ++ sep ++ join sep t
  end.

(** Lookup in a decoded object; [json.loads] keeps the last duplicate key. *)
Fixpoint dict_get (kvs : list (string * json)) (k : string) : option json :=
  match kvs with
  | [] => None
  | (k', v) :: t =>
      match dict_get t k with
      | Some w => Some w
      | None => if String.eqb k' k then Some v else None
      end
  end.

(** [data.get(k, default)]: only a dict has [.get]. *)
Definition py_get (data : json) (k : string) (default : json) : outcome json :=
  match data with
  | JObj kvs => match dict_get kvs k with Some v => Ok v | None => Ok default end
  | _ => Raise AttributeError
  end.

(** [v[k]] with a string key. *)
Definition subscript (v : json) (k : string) : outcome json :=
  match v with
  | JObj kvs => of_option KeyError (dict_get kvs k)
  | _ => Raise TypeError
  end.

(** The items of [for video in results]: a list's elements, a dict's keys,
    a string's characters (here its UTF-8 bytes: every use below only
    needs that a string yields no item exactly when it is empty, and that
    each item is a [str]); other values are not iterable. *)
Definition iter_items (j : json) : outcome (list json) :=
  match j with
  | JArr l => Ok l
  | JObj kvs => Ok (map (fun kv => JStr (fst kv)) kvs)
  | JStr s => Ok (map (fun c => JStr (String c EmptyString)) (list_ascii_of_string s))
  | _ => Raise TypeError
  end.

(** [j == s] for a string [s]. *)
Definition eq_str (j : json) (s : string) : bool :=
  match j with
  | JStr s' => String.eqb s' s
  | _ => false
  end.

Definition fallback : string := "https://youtube.com".

Section Repr.

(** [repr] of a decoded value that is not a [str] (numbers, [None],
    booleans, lists and dicts, with Python's quoting of nested strings);
    it is left as a parameter. *)
Variable py_repr : json -> string.

(** [str(j)], used by the f-strings of lines 25 and 44. *)
Definition py_str (j : json) : string :=
  match j with
  | JStr s => s
  | _ => py_repr j
  end.

Definition watch_url (key : json) : string :=
  "https://www.youtube.com/watch?v=" ++ py_str key.

(** Lines 42-45. *)
Fixpoint scan_videos (vs : list json) : outcome string :=
  match vs with
  | [] => Ok fallback
  | video :: t =>
      ty <- subscript video "type" ;;
      if eq_str ty "Trailer" then
        site <- subscript video "site" ;;
        if eq_str site "YouTube" then
          key <- subscript video "key" ;;
          Ok (watch_url key)
        else scan_videos t
      else scan_videos t
  end.

(** Lines 36-47.  [response] is the outcome of [requests.get],
    [raise_for_status] and [response.json()]; [Raise] stands for any
    failure there.  The bare [except:] turns every exception into the
    fallback URL. *)
Definition fetch_trailer (response : outcome json) : string :=
  match (data <- response ;;
         results <- py_get data "results" (JArr []) ;;
         vs <- iter_items results ;;
         scan_videos vs) with
  | Ok url => url
  | Raise _ => fallback
  end.

End Repr.

(** Vocabulary for statements about the scan of lines 42-45.  An entry is
    passed over when [video['type']] is readable and either differs from
    "Trailer" (the [and] then skips [video['site']]) or is "Trailer" with a
    readable [video['site']] different from "YouTube". *)
Definition passed_over (v : json) : Prop :=
  exists ty, subscript v "type" = Ok ty /\
    (eq_str ty "Trailer" = true ->
     exists site, subscript v "site" = Ok site /\ eq_str site "YouTube" = false).

(** An entry of type "Trailer" on site "YouTube" with key [key]. *)
Definition youtube_trailer (v : json) (key : json) : Prop :=
  exists ty site, subscript v "type" = Ok ty /\ eq_str ty "Trailer" = true /\
    subscript v "site" = Ok site /\ eq_str site "YouTube" = true /\
    subscript v "key" = Ok key.

End Trailer.

(** ** [fetch_movie_details] (lines 18-34) over the decoded JSON response *)
Module Details.
Import Trailer.

(** Python truthiness of a decoded JSON value. *)
Definition py_truthy (j : json) : bool :=
  match j with
  | JNull => false
  | JBool b => b
  | JNum z => negb (z =? 0)%Z
  | JFloat q => negb (Qeq_bool q 0)
  | JStr s => negb (String.eqb s "")
  | JArr l => match l with [] => false | _ => true end
  | JObj kvs => match kvs with [] => false | _ => true end
  end.

(** [sep.join(l)]: every item must be a [str]. *)
Definition py_join (sep : string) (l : list json) : outcome string :=
  ss <- map_m (fun j => match j with JStr s => Ok s | _ => Raise TypeError end) l ;;
  Ok (join sep ss).

Definition no_image : string := "https://via.placeholder.com/500x750?text=No+Image".
Definition image_base : string := "https://image.tmdb.org/t/p/w500/".

(** The tuple returned from the [except] branch (line 34). *)
Definition error_details : string * string * json * string :=
  ("https://via.placeholder.com/500x750?text=Error", "N/A", JStr "N/A", "N/A").

(** Lines 18-34.  [response] is the outcome of [requests.get],
    [raise_for_status] and [response.json()]; the rating is returned as the
    JSON value of [vote_average].  [py_repr] renders a non-[str] poster
    path.  The [except Exception] turns every exception into
    [error_details]. *)
Definition fetch_movie_details (py_repr : json -> string) (response : outcome json)
  : string * string * json * string :=
  match (data <- response ;;
         pp <- py_get data "poster_path" JNull ;;
         poster <- (if py_truthy pp then
                      p <- subscript data "poster_path" ;;
                      Ok (image_base ++ py_str py_repr p)
                    else Ok no_image) ;;
         gs <- py_get data "genres" (JArr []) ;;
         gitems <- iter_items gs ;;
         gnames <- map_m (fun genre => subscript genre "name") gitems ;;
         genres <- py_join ", " gnames ;;
         rating <- py_get data "vote_average" (JStr "N/A") ;;
         credits <- py_get data "credits" (JObj []) ;;
         cs <- py_get credits "cast" (JArr []) ;;
         citems <- iter_items cs ;;
         cast_list <- map_m (fun cast => subscript cast "name") citems ;;
         cast <- py_join ", " (firstn 5 cast_list) ;;
         Ok (poster, genres, rating, cast)) with
  | Ok t => t
  | Raise _ => error_details
  end.

End Details.

(** * Properties *)

(** ** The ranking of [recommend] *)

(** [a] ranks strictly before [b]: a higher score, or an equal score at an
    earlier catalog position. *)
Definition ranked_before (a b : nat * Q) : Prop :=
  (snd b < snd a)%Q \/ (snd a == snd b /\ (fst a < fst b)%nat)%Q.

(** The similarity matrix is square, of the catalog's size (Section 3). *)
Definition dims_ok (movies : list Movie) (similarity : list (list Q)) : Prop :=
  List.length similarity = List.length movies /\
  Forall (fun row => List.length row = List.length movies) similarity.

Lemma ranked_before_trans : forall a b c,
  ranked_before a b -> ranked_before b c -> ranked_before a c.
Proof.
  unfold ranked_before; intros a b c [H1 | [H1 H1']] [H2 | [H2 H2']].
  - left; eapply Qlt_trans; eauto.
  - left; rewrite <- H2; exact H1.
  - left; rewrite H1; exact H2.
  - right; split; [eapply Qeq_trans; eauto | lia].
Qed.

Lemma insert_desc_perm : forall x l, Permutation (insert_desc x l) (x :: l).
Proof.
  intros x l; induction l as [| y t IH]; simpl; [constructor; constructor|].
  destruct (Qle_bool (snd y) (snd x)); [reflexivity|].
  rewrite IH; constructor.
Qed.

Lemma sort_desc_perm : forall l, Permutation (sort_desc l) l.
Proof.
  induction l as [| x t IH]; simpl; [constructor|].
  rewrite insert_desc_perm; constructor; exact IH.
Qed.

Lemma insert_desc_sorted : forall x l,
  StronglySorted ranked_before l ->
  Forall (fun y => (fst x < fst y)%nat) l ->
  StronglySorted ranked_before (insert_desc x l).
Proof.
  intros x l; induction l as [| y t IH]; intros Hs Hf; simpl.
  - repeat constructor.
  - apply StronglySorted_inv in Hs as [Hst Hyt].
    inversion Hf as [| ? ? Hxy Hxt]; subst.
    destruct (Qle_bool (snd y) (snd x)) eqn:E.
    + apply Qle_bool_iff in E.
      assert (Rxy : ranked_before x y).
      { unfold ranked_before.
        destruct (Qlt_le_dec (snd y) (snd x)) as [Hlt | Hle]; [left; exact Hlt|].
        right; split; [apply Qle_antisym; assumption | exact Hxy]. }
      constructor; [constructor; assumption|].
      constructor; [exact Rxy|].
      eapply Forall_impl; [|exact Hyt].
      intros z Hz; eapply ranked_before_trans; eauto.
    + assert (Ryx : ranked_before y x).
      { left; apply Qnot_le_lt; intro Hle; apply Qle_bool_iff in Hle; congruence. }
      constructor; [apply IH; assumption|].
      eapply Permutation_Forall; [symmetry; apply insert_desc_perm|].
      constructor; assumption.
Qed.

Lemma enumerate_from_In : forall {A} (l : list A) k i a,
  In (i, a) (enumerate_from k l) -> (k <= i)%nat /\ nth_error l (i - k) = Some a.
Proof.
  intros A l; induction l as [| x t IH]; simpl; intros k i a H; [contradiction|].
  destruct H as [H | H].
  - inversion H; subst. rewrite Nat.sub_diag; simpl; split; [lia | reflexivity].
  - apply IH in H as [Hk Hn]. split; [lia|].
    replace (i - k)%nat with (S (i - S k)) by lia. exact Hn.
Qed.

Lemma enumerate_from_length : forall {A} (l : list A) k,
  List.length (enumerate_from k l) = List.length l.
Proof. intros A l; induction l; simpl; intros; [reflexivity | now rewrite IHl]. Qed.

Lemma enumerate_from_NoDup : forall {A} (l : list A) k,
  NoDup (map fst (enumerate_from k l)).
Proof.
  intros A l; induction l as [| x t IH]; simpl; intros k; constructor; [|apply IH].
  intro H; apply in_map_iff in H as [[i a] [Hi Hin]]; simpl in Hi; subst.
  apply enumerate_from_In in Hin as [Hk _]; lia.
Qed.

Lemma enumerate_from_nth : forall {A} (l : list A) k j a,
  nth_error l j = Some a -> In (k + j, a)%nat (enumerate_from k l).
Proof.
  intros A l; induction l as [| x t IH]; simpl; intros k j a H.
  - destruct j; discriminate.
  - destruct j as [| j]; simpl in H.
    + inversion H; subst; left; f_equal; lia.
    + right. replace (k + S j)%nat with (S k + j)%nat by lia. apply IH; exact H.
Qed.

Lemma sort_desc_enumerate_sorted : forall l k,
  StronglySorted ranked_before (sort_desc (enumerate_from k l)).
Proof.
  intros l; induction l as [| x t IH]; intros k; simpl; [constructor|].
  apply insert_desc_sorted; [apply IH|].
  eapply Permutation_Forall; [symmetry; apply sort_desc_perm|].
  apply Forall_forall; intros [i a] Hin; simpl.
  apply enumerate_from_In in Hin as [Hk _]; lia.
Qed.

Lemma StronglySorted_skipn : forall {A} (R : A -> A -> Prop) n l,
  StronglySorted R l -> StronglySorted R (skipn n l).
Proof.
  intros A R n; induction n as [| n IH]; intros l H; simpl; [exact H|].
  destruct l as [| x t]; [constructor|].
  apply StronglySorted_inv in H as [H _]; apply IH; exact H.
Qed.

Lemma StronglySorted_firstn : forall {A} (R : A -> A -> Prop) n l,
  StronglySorted R l -> StronglySorted R (firstn n l).
Proof.
  intros A R n; induction n as [| n IH]; intros l H; simpl; [constructor|].
  destruct l as [| x t]; [constructor|].
  apply StronglySorted_inv in H as [Ht Hx].
  constructor; [apply IH; exact Ht|].
  apply Forall_forall; intros y Hy.
  rewrite Forall_forall in Hx; apply Hx.
  rewrite <- (firstn_skipn n t); apply in_or_app; left; exact Hy.
Qed.

Lemma py_slice_tail : forall {A} (l : list A) (N : Z),
  (1 <= List.length l)%nat -> (0 <= N)%Z ->
  py_slice l 1 (N + 1) = firstn (Z.to_nat N) (skipn 1 l).
Proof.
  intros A l N Hl HN; unfold py_slice, slice_bound; simpl.
  replace (N + 1 <? 0)%Z with false by (symmetry; apply Z.ltb_ge; lia).
  replace (Z.to_nat (Z.min 1 (Z.of_nat (List.length l)))) with 1%nat by lia.
  destruct l as [| x t]; simpl in *; [lia|].
  destruct (Nat.le_gt_cases (Z.to_nat N) (List.length t)) as [Hle | Hgt].
  - f_equal; lia.
  - rewrite (firstn_all2 (n := Z.to_nat N)) by lia.
    apply firstn_all2; lia.
Qed.

Lemma py_slice_incl : forall {A} (l : list A) a b x,
  In x (py_slice l a b) -> In x l.
Proof.
  intros A l a b x H; unfold py_slice in H.
  set (k := slice_bound a (List.length l)) in H.
  rewrite <- (firstn_skipn k l); apply in_or_app; right.
  rewrite <- (firstn_skipn (slice_bound b (List.length l) - k) (skipn k l)).
  apply in_or_app; left; exact H.
Qed.

Lemma map_m_ok : forall {A B} (f : A -> outcome B) (l : list A),
  (forall x, In x l -> exists y, f x = Ok y) ->
  exists ys, map_m f l = Ok ys /\ Forall2 (fun x y => f x = Ok y) l ys.
Proof.
  intros A B f l; induction l as [| x t IH]; intros H; simpl.
  - exists []; split; constructor.
  - destruct (H x (or_introl eq_refl)) as [y Hy].
    destruct IH as [ys [Hys Hf]]; [intros z Hz; apply H; right; exact Hz|].
    exists (y :: ys); rewrite Hy, Hys; simpl; split; [reflexivity | constructor; assumption].
Qed.

Lemma first_index_from_ok : forall movie ms k p,
  first_index_from k movie ms = Ok p ->
  (k <= p)%nat /\ exists m, nth_error ms (p - k) = Some m /\ title m = movie.
Proof.
  intros movie ms; induction ms as [| m t IH]; simpl; intros k p H; [discriminate|].
  destruct (String.eqb (title m) movie) eqn:E.
  - inversion H; subst. rewrite Nat.sub_diag; split; [lia|].
    exists m; split; [reflexivity | apply String.eqb_eq; exact E].
  - apply IH in H as [Hk Hm]; split; [lia|].
    replace (p - k)%nat with (S (p - S k)) by lia; exact Hm.
Qed.

Lemma first_index_from_found : forall movie ms k m,
  In m ms -> title m = movie -> exists p, first_index_from k movie ms = Ok p.
Proof.
  intros movie ms; induction ms as [| m' t IH]; simpl; intros k m Hin Ht; [contradiction|].
  destruct (String.eqb (title m') movie) eqn:E; [eexists; reflexivity|].
  destruct Hin as [Hin | Hin].
  - subst. rewrite String.eqb_refl in E; discriminate.
  - eapply IH; eauto.
Qed.

Lemma first_index_from_missing : forall movie ms k,
  (forall m, In m ms -> title m <> movie) ->
  first_index_from k movie ms = Raise IndexError.
Proof.
  intros movie ms; induction ms as [| m t IH]; simpl; intros k H; [reflexivity|].
  destruct (String.eqb (title m) movie) eqn:E.
  - apply String.eqb_eq in E. exfalso; apply (H m); [left; reflexivity | exact E].
  - apply IH; intros m' Hm'; apply H; right; exact Hm'.
Qed.

(** With square dimensions, a title at position [p] ranks the enumerated
    row [p]. *)
Lemma recommend_ranked_row : forall movies similarity movie p N,
  dims_ok movies similarity ->
  first_index_from 0 movie movies = Ok p ->
  exists row, nth_error similarity p = Some row /\
    List.length row = List.length movies /\
    recommend_ranked movies similarity movie N
      = Ok (py_slice (sort_desc (enumerate row)) 1 (N + 1)).
Proof.
  intros movies similarity movie p N [Hlen Hrows] Hp.
  pose proof (first_index_from_ok _ _ _ _ Hp) as [_ [m [Hm _]]].
  rewrite Nat.sub_0_r in Hm.
  assert (Hlt : (p < List.length similarity)%nat)
    by (rewrite Hlen; apply nth_error_Some; congruence).
  destruct (nth_error similarity p) as [row|] eqn:Hrow;
    [|apply nth_error_Some in Hlt; contradiction].
  exists row; split; [reflexivity|]; split.
  - rewrite Forall_forall in Hrows; apply Hrows; eapply nth_error_In; exact Hrow.
  - unfold recommend_ranked; rewrite Hp; simpl; rewrite Hrow; reflexivity.
Qed.

(** Every selected position is a position of the row. *)
Lemma ranked_positions : forall row a b x,
  In x (py_slice (sort_desc (enumerate row)) a b) ->
  nth_error row (fst x) = Some (snd x).
Proof.
  intros row a b [i q] H; apply py_slice_incl in H.
  apply (Permutation_in _ (sort_desc_perm _)) in H.
  apply enumerate_from_In in H as [_ H]; rewrite Nat.sub_0_r in H; exact H.
Qed.

Lemma recommend_of_ranked : forall movies similarity fmd ft movie N sel,
  recommend_ranked movies similarity movie N = Ok sel ->
  (forall x, In x sel -> (fst x < List.length movies)%nat) ->
  exists res, recommend movies similarity fmd ft movie N = Ok res /\
    Forall2 (fun x r => exists m, nth_error movies (fst x) = Some m /\
                                  r = movie_result fmd ft m) sel res.
Proof.
  intros movies similarity fmd ft movie N sel Hsel Hpos.
  destruct (map_m_ok (fun i => m <- of_option IndexError (nth_error movies (fst i)) ;;
                               Ok (movie_result fmd ft m)) sel) as [res [Hres Hf]].
  - intros x Hx; apply Hpos, nth_error_Some in Hx.
    destruct (nth_error movies (fst x)); [eexists; reflexivity | contradiction].
  - exists res; unfold recommend; rewrite Hsel; simpl; split; [exact Hres|].
    eapply Forall2_impl; [|exact Hf]; intros x r H; simpl in H.
    destruct (nth_error movies (fst x)); simpl in H; [|discriminate].
    inversion H; subst; eexists; split; reflexivity.
Qed.

Lemma map_m_Forall2 : forall {A B} (f : A -> outcome B) l ys,
  map_m f l = Ok ys -> Forall2 (fun x y => f x = Ok y) l ys.
Proof.
  intros A B f l; induction l as [| x t IH]; simpl; intros ys H.
  - inversion H; constructor.
  - destruct (f x) as [y|e] eqn:Hx; simpl in H; [|discriminate].
    destruct (map_m f t) as [ys'|e] eqn:Ht; simpl in H; [|discriminate].
    inversion H; subst; constructor; [exact Hx | apply IH; reflexivity].
Qed.

Lemma ranked_sorted : forall row a b,
  Sorted ranked_before (py_slice (sort_desc (enumerate row)) a b).
Proof.
  intros row a b; apply StronglySorted_Sorted; unfold py_slice.
  apply StronglySorted_firstn, StronglySorted_skipn, sort_desc_enumerate_sorted.
Qed.

(** When the self-score is at least every score of the row and strictly
    above every score at an earlier position, the self-entry ranks first,
    so the slice [distances[1:]] leaves it out. *)
Lemma self_first_excluded : forall row p self b,
  nth_error row p = Some self ->
  (forall j q, nth_error row j = Some q ->
     (q <= self)%Q /\ ((j < p)%nat -> (q < self)%Q)) ->
  ~ In p (map fst (py_slice (sort_desc (enumerate row)) 1 b)).
Proof.
  intros row p self b Hself Htop Hin.
  set (L := sort_desc (enumerate row)) in Hin.
  assert (HinL : In (p, self) L).
  { apply (Permutation_in _ (Permutation_sym (sort_desc_perm _))).
    apply (enumerate_from_nth row 0 p self Hself). }
  assert (Hnd : NoDup (map fst L)).
  { eapply Permutation_NoDup; [apply Permutation_map; symmetry; apply sort_desc_perm|].
    apply enumerate_from_NoDup. }
  assert (Hss : StronglySorted ranked_before L) by apply sort_desc_enumerate_sorted.
  destruct L as [| h t] eqn:EL; [contradiction|].
  assert (Hh : fst h = p).
  { destruct (Nat.eq_dec (fst h) p) as [E | NE]; [exact E|exfalso].
    destruct HinL as [HinL | HinL]; [subst h; simpl in NE; lia|].
    apply StronglySorted_inv in Hss as [_ Hf]; rewrite Forall_forall in Hf.
    pose proof (Hf _ HinL) as Hr.
    assert (Hhrow : nth_error row (fst h) = Some (snd h)).
    { assert (In h (enumerate row)).
      { apply (Permutation_in _ (sort_desc_perm _)). fold L; rewrite EL; left; reflexivity. }
      destruct h as [i q]; apply enumerate_from_In in H as [_ H].
      rewrite Nat.sub_0_r in H; exact H. }
    destruct (Htop _ _ Hhrow) as [Hle Hlt].
    destruct Hr as [Hr | [Heq Hpos]]; simpl in *.
    - apply (Qlt_not_le _ _ Hr Hle).
    - specialize (Hlt Hpos). rewrite Heq in Hlt. apply (Qlt_irrefl _ Hlt). }
  unfold py_slice in Hin; simpl in Hin.
  apply in_map_iff in Hin as [x [Hx Hxin]].
  assert (Hxt : In x (skipn (slice_bound 1 (S (List.length t))) (h :: t))).
  { rewrite <- (firstn_skipn (slice_bound b (S (List.length t))
                             - slice_bound 1 (S (List.length t)))
                             (skipn (slice_bound 1 (S (List.length t))) (h :: t))).
    apply in_or_app; left; exact Hxin. }
  replace (slice_bound 1 (S (List.length t))) with 1%nat in Hxt
    by (unfold slice_bound; simpl; lia).
  simpl in Hxt. simpl in Hnd; apply NoDup_cons_iff in Hnd as [Hnot _].
  apply Hnot; rewrite Hh, <- Hx; apply in_map; exact Hxt.
Qed.

(** The shape of a successful [recommend] for a present title. *)
Lemma recommend_shape : forall movies similarity fmd ft movie p N,
  dims_ok movies similarity ->
  first_index_from 0 movie movies = Ok p ->
  (0 <= N)%Z ->
  exists row sel res,
    nth_error similarity p = Some row /\
    sel = py_slice (sort_desc (enumerate row)) 1 (N + 1) /\
    recommend_ranked movies similarity movie N = Ok sel /\
    recommend movies similarity fmd ft movie N = Ok res /\
    Forall2 (fun x r => exists m, nth_error movies (fst x) = Some m /\
                                  r = movie_result fmd ft m) sel res /\
    List.length res = Nat.min (Z.to_nat N) (List.length movies - 1).
Proof.
  intros movies similarity fmd ft movie p N Hdims Hp HN.
  destruct (recommend_ranked_row movies similarity movie p N Hdims Hp)
    as [row [Hrow [Hlen Hsel]]].
  pose proof (first_index_from_ok _ _ _ _ Hp) as [_ [m [Hm _]]].
  rewrite Nat.sub_0_r in Hm.
  assert (Hpl : (p < List.length movies)%nat) by (apply nth_error_Some; congruence).
  assert (HL : List.length (sort_desc (enumerate row)) = List.length movies).
  { rewrite (Permutation_length (sort_desc_perm _)); unfold enumerate.
    rewrite enumerate_from_length; exact Hlen. }
  destruct (recommend_of_ranked movies similarity fmd ft movie N _ Hsel)
    as [res [Hres Hf]].
  { intros x Hx; rewrite <- Hlen; apply nth_error_Some.
    rewrite (ranked_positions row 1 (N + 1) x Hx); discriminate. }
  exists row, (py_slice (sort_desc (enumerate row)) 1 (N + 1)), res.
  repeat split; try assumption.
  rewrite <- (Forall2_length Hf), py_slice_tail by lia.
  rewrite length_firstn, length_skipn, HL; reflexivity.
Qed.

(** X14: for a title whose first catalog position is [p], a square
    similarity matrix of the catalog's size and a count [N] in
    [1, catalogSize-1], [recommend] returns exactly [N] results, the movie
    records of the ranked positions [sel] (the ranking without its first
    entry).  The movie's own position [p] is not among them whenever its
    self-score is at least every score of its row and strictly above every
    score at an earlier position, i.e. whenever it ranks first. *)
Theorem recommend_exact_count : forall movies similarity fmd ft movie p N,
  dims_ok movies similarity ->
  first_index_from 0 movie movies = Ok p ->
  (1 <= N <= Z.of_nat (List.length movies) - 1)%Z ->
  exists sel res,
    recommend_ranked movies similarity movie N = Ok sel /\
    recommend movies similarity fmd ft movie N = Ok res /\
    List.length res = Z.to_nat N /\
    Forall2 (fun x r => exists m, nth_error movies (fst x) = Some m /\
                                  r = movie_result fmd ft m) sel res /\
    (forall row self, nth_error similarity p = Some row ->
       nth_error row p = Some self ->
       (forall j q, nth_error row j = Some q ->
          (q <= self)%Q /\ ((j < p)%nat -> (q < self)%Q)) ->
       ~ In p (map fst sel)).
Proof.
  intros movies similarity fmd ft movie p N Hdims Hp HN.
  destruct (recommend_shape movies similarity fmd ft movie p N Hdims Hp ltac:(lia))
    as [row [sel [res [Hrow [Hsel [Hrk [Hrec [Hf Hlen]]]]]]]].
  exists sel, res; repeat split; try assumption.
  - rewrite Hlen; lia.
  - intros row' self Hrow' Hself Htop.
    rewrite Hrow in Hrow'; inversion Hrow'; subst row'.
    rewrite Hsel; eapply self_first_excluded; eassumption.
Qed.

Lemma recommend_exact_count_witness :
  dims_ok [mk_movie 1 "A"; mk_movie 2 "B"; mk_movie 3 "C"]
          [[1; 0.8; 0.3]; [0.8; 1; 0.5]; [0.3; 0.5; 1]]%Q /\
  first_index_from 0 "A" [mk_movie 1 "A"; mk_movie 2 "B"; mk_movie 3 "C"] = Ok 0%nat /\
  (1 <= 2 <= Z.of_nat 3 - 1)%Z /\
  exists sel res,
    recommend_ranked [mk_movie 1 "A"; mk_movie 2 "B"; mk_movie 3 "C"]
      [[1; 0.8; 0.3]; [0.8; 1; 0.5]; [0.3; 0.5; 1]]%Q "A" 2 = Ok sel /\
    recommend [mk_movie 1 "A"; mk_movie 2 "B"; mk_movie 3 "C"]
      [[1; 0.8; 0.3]; [0.8; 1; 0.5]; [0.3; 0.5; 1]]%Q
      (fun _ => mk_details "p" "g" RNA "c") (fun _ => "t") "A" 2 = Ok res /\
    List.length res = Z.to_nat 2 /\
    Forall2 (fun x r => exists m,
               nth_error [mk_movie 1 "A"; mk_movie 2 "B"; mk_movie 3 "C"] (fst x) = Some m /\
               r = movie_result (fun _ => mk_details "p" "g" RNA "c") (fun _ => "t") m) sel res /\
    (forall row self,
       nth_error [[1; 0.8; 0.3]; [0.8; 1; 0.5]; [0.3; 0.5; 1]]%Q 0 = Some row ->
       nth_error row 0 = Some self ->
       (forall j q, nth_error row j = Some q ->
          (q <= self)%Q /\ ((j < 0)%nat -> (q < self)%Q)) ->
       ~ In 0%nat (map fst sel)).
Proof.
  assert (Hd : dims_ok [mk_movie 1 "A"; mk_movie 2 "B"; mk_movie 3 "C"]
                 [[1; 0.8; 0.3]; [0.8; 1; 0.5]; [0.3; 0.5; 1]]%Q)
    by (split; [reflexivity | repeat constructor]).
  split; [exact Hd|]; split; [reflexivity|]; split; [simpl; lia|].
  apply (recommend_exact_count _ _ _ _ "A" 0 2 Hd); [reflexivity | simpl; lia].
Defined.

(** C1 (code bug): [distances[1:]] is meant to drop the queried movie's
    own entry, but it drops whatever ranks first.  With a tie between the
    self-score and the score of an earlier position, the stable sort puts
    the earlier position first, so that one is dropped and
    [recommend "B" 1] returns "B" itself (position 1). *)
Lemma recommend_self_included :
  dims_ok [mk_movie 1 "A"; mk_movie 2 "B"] [[1; 1]; [1; 1]]%Q /\
  first_index_from 0 "B" [mk_movie 1 "A"; mk_movie 2 "B"] = Ok 1%nat /\
  recommend_ranked [mk_movie 1 "A"; mk_movie 2 "B"] [[1; 1]; [1; 1]]%Q "B" 1
    = Ok [(1%nat, 1%Q)] /\
  recommend [mk_movie 1 "A"; mk_movie 2 "B"] [[1; 1]; [1; 1]]%Q
    (fun _ => mk_details "p" "g" RNA "c") (fun _ => "t") "B" 1
    = Ok [mk_result "B" "p" "g" RNA "c" "t"].
Proof.
  split; [split; [reflexivity | repeat constructor] |].
  split; [reflexivity|]; split; reflexivity.
Qed.

(** C2: whenever [recommend] returns, its results are the movie records of
    ranked (position, score) pairs [sel]; each score is the similarity of
    that position in the row of the title's position, and consecutive pairs
    are ordered by non-increasing score, equal scores by ascending position. *)
Theorem recommend_sorted : forall movies similarity fmd ft movie N res,
  recommend movies similarity fmd ft movie N = Ok res ->
  exists p row sel,
    first_index_from 0 movie movies = Ok p /\
    nth_error similarity p = Some row /\
    recommend_ranked movies similarity movie N = Ok sel /\
    Forall2 (fun x r => exists m, nth_error movies (fst x) = Some m /\
                                  r = movie_result fmd ft m) sel res /\
    Forall (fun x => nth_error row (fst x) = Some (snd x)) sel /\
    Sorted ranked_before sel.
Proof.
  intros movies similarity fmd ft movie N res H.
  unfold recommend, recommend_ranked in H.
  destruct (first_index_from 0 movie movies) as [p|e] eqn:Hp; simpl in H; [|discriminate].
  destruct (nth_error similarity p) as [row|] eqn:Hrow; simpl in H; [|discriminate].
  exists p, row, (py_slice (sort_desc (enumerate row)) 1 (N + 1)).
  split; [reflexivity|]; split; [exact Hrow|]; split.
  { unfold recommend_ranked; rewrite Hp; simpl; rewrite Hrow; reflexivity. }
  split; [|split].
  - apply map_m_Forall2 in H.
    eapply Forall2_impl; [|exact H]; intros x r Hx; simpl in Hx.
    destruct (nth_error movies (fst x)); simpl in Hx; [|discriminate].
    inversion Hx; subst; eexists; split; reflexivity.
  - apply Forall_forall; intros x Hx; eapply ranked_positions; exact Hx.
  - apply ranked_sorted.
Qed.

Lemma recommend_sorted_witness :
  recommend [mk_movie 1 "A"; mk_movie 2 "B"; mk_movie 3 "C"]
    [[1; 0.5; 0.5]; [0.5; 1; 0.2]; [0.5; 0.2; 1]]%Q
    (fun _ => mk_details "p" "g" RNA "c") (fun _ => "t") "A" 2
    = Ok [mk_result "B" "p" "g" RNA "c" "t"; mk_result "C" "p" "g" RNA "c" "t"] /\
  exists p row sel,
    first_index_from 0 "A" [mk_movie 1 "A"; mk_movie 2 "B"; mk_movie 3 "C"] = Ok p /\
    nth_error [[1; 0.5; 0.5]; [0.5; 1; 0.2]; [0.5; 0.2; 1]]%Q p = Some row /\
    recommend_ranked [mk_movie 1 "A"; mk_movie 2 "B"; mk_movie 3 "C"]
      [[1; 0.5; 0.5]; [0.5; 1; 0.2]; [0.5; 0.2; 1]]%Q "A" 2 = Ok sel /\
    Forall2 (fun x r => exists m,
       nth_error [mk_movie 1 "A"; mk_movie 2 "B"; mk_movie 3 "C"] (fst x) = Some m /\
       r = movie_result (fun _ => mk_details "p" "g" RNA "c") (fun _ => "t") m)
      sel [mk_result "B" "p" "g" RNA "c" "t"; mk_result "C" "p" "g" RNA "c" "t"] /\
    Forall (fun x => nth_error row (fst x) = Some (snd x)) sel /\
    Sorted ranked_before sel.
Proof.
  assert (H : recommend [mk_movie 1 "A"; mk_movie 2 "B"; mk_movie 3 "C"]
    [[1; 0.5; 0.5]; [0.5; 1; 0.2]; [0.5; 0.2; 1]]%Q
    (fun _ => mk_details "p" "g" RNA "c") (fun _ => "t") "A" 2
    = Ok [mk_result "B" "p" "g" RNA "c" "t"; mk_result "C" "p" "g" RNA "c" "t"])
    by reflexivity.
  split; [exact H | exact (recommend_sorted _ _ _ _ _ _ _ H)].
Defined.

(** C5: for a title equal to no catalog title, [recommend] raises the
    lookup failure of [.index[0]] (Python's [IndexError], the spec's
    NotFoundError condition) instead of returning results, whatever the
    similarity matrix, the metadata and the count. *)
Theorem recommend_not_found : forall movies similarity fmd ft movie N,
  (forall m, In m movies -> title m <> movie) ->
  recommend movies similarity fmd ft movie N = Raise IndexError.
Proof.
  intros movies similarity fmd ft movie N H.
  unfold recommend, recommend_ranked.
  rewrite (first_index_from_missing movie movies 0 H); reflexivity.
Qed.

Lemma recommend_not_found_witness :
  (forall m, In m [mk_movie 1 "A"; mk_movie 2 "B"] -> title m <> "Z") /\
  recommend [mk_movie 1 "A"; mk_movie 2 "B"] [[1; 0]; [0; 1]]%Q
    (fun _ => mk_details "p" "g" RNA "c") (fun _ => "t") "Z" 5 = Raise IndexError.
Proof.
  assert (H : forall m, In m [mk_movie 1 "A"; mk_movie 2 "B"] -> title m <> "Z").
  { intros m [Hm | [Hm | []]]; subst; simpl; discriminate. }
  split; [exact H | apply recommend_not_found; exact H].
Defined.

(** C10: for a present title, square dimensions and a count at least the
    catalog size, [recommend] does not fail and returns exactly
    catalogSize - 1 results. *)
Theorem recommend_clipped : forall movies similarity fmd ft movie m N,
  dims_ok movies similarity ->
  In m movies -> title m = movie ->
  (Z.of_nat (List.length movies) <= N)%Z ->
  exists res, recommend movies similarity fmd ft movie N = Ok res /\
    List.length res = (List.length movies - 1)%nat.
Proof.
  intros movies similarity fmd ft movie m N Hdims Hin Ht HN.
  destruct (first_index_from_found movie movies 0 m Hin Ht) as [p Hp].
  destruct (recommend_shape movies similarity fmd ft movie p N Hdims Hp ltac:(lia))
    as [row [sel [res [_ [_ [_ [Hrec [_ Hlen]]]]]]]].
  exists res; split; [exact Hrec|]; rewrite Hlen; lia.
Qed.

Lemma recommend_clipped_witness :
  dims_ok [mk_movie 1 "A"; mk_movie 2 "B"; mk_movie 3 "C"]
          [[1; 0.8; 0.3]; [0.8; 1; 0.5]; [0.3; 0.5; 1]]%Q /\
  In (mk_movie 2 "B") [mk_movie 1 "A"; mk_movie 2 "B"; mk_movie 3 "C"] /\
  (Z.of_nat 3 <= 20)%Z /\
  exists res, recommend [mk_movie 1 "A"; mk_movie 2 "B"; mk_movie 3 "C"]
      [[1; 0.8; 0.3]; [0.8; 1; 0.5]; [0.3; 0.5; 1]]%Q
      (fun _ => mk_details "p" "g" RNA "c") (fun _ => "t") "B" 20 = Ok res /\
    List.length res = (3 - 1)%nat.
Proof.
  assert (Hd : dims_ok [mk_movie 1 "A"; mk_movie 2 "B"; mk_movie 3 "C"]
                 [[1; 0.8; 0.3]; [0.8; 1; 0.5]; [0.3; 0.5; 1]]%Q)
    by (split; [reflexivity | repeat constructor]).
  assert (Hin : In (mk_movie 2 "B") [mk_movie 1 "A"; mk_movie 2 "B"; mk_movie 3 "C"])
    by (right; left; reflexivity).
  split; [exact Hd|]; split; [exact Hin|]; split; [simpl; lia|].
  apply (recommend_clipped _ _ _ _ "B" (mk_movie 2 "B") 20 Hd Hin); [reflexivity | simpl; lia].
Defined.

(** ** The scan of [filter_movies_by_criteria lower] *)

Section FilterFacts.

Variable lower : string -> string.
Variable fmd : Z -> details.
Variable ft : Z -> string.
Variable genre cast : string.
Variable min_rating : Q.
Variable N : Z.

Let mt := matches_movie lower fmd genre cast min_rating.
Let loop := filter_loop lower fmd ft genre cast min_rating N.

(** One iteration of the loop, with the predicate folded. *)
Lemma filter_loop_cons : forall m rest i matched,
  loop (m :: rest) i matched =
  if mt m then
    let matched' := (matched ++ [movie_result fmd ft m])%list in
    if (N <=? Z.of_nat (List.length matched'))%Z then (matched', [i])
    else let '(res, tr) := loop rest (S i) matched' in (res, i :: tr)
  else let '(res, tr) := loop rest (S i) matched in (res, i :: tr).
Proof.
  intros m rest i matched; subst mt loop; simpl; unfold matches_movie.
  destruct (contains (lower genre) (lower (d_genres (fmd (movie_id m))))
            && contains (lower cast) (lower (d_cast (fmd (movie_id m))))); simpl;
    [| destruct (filter_loop lower _ _ _ _ _ _ rest (S i) matched); reflexivity].
  destruct (d_rating (fmd (movie_id m))) as [r|] eqn:Er; simpl;
    [| destruct (filter_loop lower _ _ _ _ _ _ rest (S i) matched); reflexivity].
  destruct (Qle_bool min_rating r); simpl;
    [| destruct (filter_loop lower _ _ _ _ _ _ rest (S i) matched); reflexivity].
  unfold movie_result; rewrite Er.
  destruct (N <=? _)%Z; [reflexivity|].
  destruct (filter_loop lower _ _ _ _ _ _ rest (S i) _); reflexivity.
Qed.

(** The collected results: the matches in scan order, as many as the
    quota check lets through (at least one when a match exists, since the
    check follows the append). *)
Lemma filter_loop_results : forall ms i matched,
  fst (loop ms i matched) =
  (matched ++ map (movie_result fmd ft)
     (firstn (Nat.max 1 (Z.to_nat N - List.length matched)) (filter mt ms)))%list.
Proof.
  intros ms; induction ms as [| m rest IH]; intros i matched.
  - simpl; rewrite firstn_nil, app_nil_r; reflexivity.
  - rewrite filter_loop_cons; simpl filter.
    destruct (mt m).
    + cbv zeta. destruct (N <=? _)%Z eqn:E.
      * apply Z.leb_le in E; rewrite length_app in E; simpl in E.
        replace (Nat.max 1 (Z.to_nat N - List.length matched)) with 1%nat by lia.
        simpl; reflexivity.
      * apply Z.leb_gt in E; rewrite length_app in E; simpl in E.
        pose proof (IH (S i) (matched ++ [movie_result fmd ft m])%list) as H.
        destruct (loop rest (S i) _) as [res tr]; cbn [fst] in H |- *; rewrite H.
        rewrite length_app; cbn [List.length].
        replace (Nat.max 1 (Z.to_nat N - List.length matched))
          with (S (Nat.max 1 (Z.to_nat N - (List.length matched + 1)))) by lia.
        cbn [firstn map]; rewrite <- app_assoc; reflexivity.
    + pose proof (IH (S i) matched) as H.
      destruct (loop rest (S i) matched) as [res tr]; cbn [fst] in H |- *; exact H.
Qed.

(** The scan stops at the match that fills the quota: no position after
    it is scanned. *)
Lemma filter_loop_trace_bound : forall ms i matched k j m,
  In k (snd (loop ms i matched)) ->
  nth_error ms j = Some m -> mt m = true ->
  (N <= Z.of_nat (List.length matched + List.length (filter mt (firstn (S j) ms))))%Z ->
  (k <= i + j)%nat.
Proof.
  intros ms; induction ms as [| m0 rest IH]; intros i matched k j m Hk Hj Hm Hq;
    [simpl in Hk; contradiction|].
  rewrite filter_loop_cons in Hk.
  destruct (mt m0) eqn:Em0.
  - cbv zeta in Hk. destruct (N <=? _)%Z eqn:E.
    + destruct Hk as [Hk | []]; lia.
    + destruct (loop rest (S i) _) as [res tr] eqn:EL.
      destruct Hk as [Hk | Hk]; [lia|].
      apply Z.leb_gt in E; rewrite length_app in E; simpl in E.
      destruct j as [| j].
      * simpl in Hq; rewrite Em0 in Hq; simpl in Hq; lia.
      * assert (H := IH (S i) (matched ++ [movie_result fmd ft m0])%list k j m).
        rewrite EL in H; simpl in H.
        enough (k <= S i + j)%nat by lia.
        apply H; [exact Hk | exact Hj | exact Hm |].
        rewrite length_app; simpl in Hq |- *; rewrite Em0 in Hq; simpl in Hq; lia.
  - destruct (loop rest (S i) matched) as [res tr] eqn:EL.
    destruct Hk as [Hk | Hk]; [lia|].
    destruct j as [| j].
    + simpl in Hj; inversion Hj; subst; congruence.
    + assert (H := IH (S i) matched k j m).
      rewrite EL in H; simpl in H.
      enough (k <= S i + j)%nat by lia.
      apply H; [exact Hk | exact Hj | exact Hm |].
      simpl in Hq; rewrite Em0 in Hq; exact Hq.
Qed.

Lemma filter_loop_trace_head : forall m rest i matched,
  In i (snd (loop (m :: rest) i matched)).
Proof.
  intros m rest i matched; rewrite filter_loop_cons.
  destruct (mt m); cbv zeta; [destruct (N <=? _)%Z; [left; reflexivity|]|];
    destruct (loop rest (S i) _); left; reflexivity.
Qed.

(** A scanned movie that does not match never ends the scan: the next
    catalog position is scanned too. *)
Lemma filter_loop_trace_continue : forall ms i matched k m,
  In k (snd (loop ms i matched)) -> (i <= k)%nat ->
  nth_error ms (k - i) = Some m -> mt m = false ->
  (S (k - i) < List.length ms)%nat ->
  In (S k) (snd (loop ms i matched)).
Proof.
  intros ms; induction ms as [| m0 rest IH]; intros i matched k m Hk Hik Hm Hmt Hlen;
    [simpl in Hk; contradiction|].
  rewrite filter_loop_cons in Hk |- *.
  destruct (Nat.eq_dec k i) as [-> | Hne].
  - rewrite Nat.sub_diag in Hm; simpl in Hm; inversion Hm; subst m0.
    rewrite Hmt.
    pose proof (filter_loop_trace_head) as Hh.
    destruct rest as [| m1 rest']; [simpl in Hlen; lia|].
    specialize (Hh m1 rest' (S i) matched).
    destruct (loop (m1 :: rest') (S i) matched) as [res tr]; right; exact Hh.
  - replace (k - i)%nat with (S (k - S i)) in Hm, Hlen by lia.
    simpl in Hm, Hlen.
    destruct (mt m0); cbv zeta in Hk |- *.
    + destruct (N <=? _)%Z; [destruct Hk as [Hk | []]; lia|].
      assert (H := IH (S i) (matched ++ [movie_result fmd ft m0])%list k m).
      destruct (loop rest (S i) _) as [res tr]; simpl in H.
      destruct Hk as [Hk | Hk]; [lia|].
      right; apply H; [exact Hk | lia | exact Hm | exact Hmt | lia].
    + assert (H := IH (S i) matched k m).
      destruct (loop rest (S i) matched) as [res tr]; simpl in H.
      destruct Hk as [Hk | Hk]; [lia|].
      right; apply H; [exact Hk | lia | exact Hm | exact Hmt | lia].
Qed.

End FilterFacts.

Lemma in_firstn_in : forall {A} n (l : list A) x, In x (firstn n l) -> In x l.
Proof.
  intros A n l x H; rewrite <- (firstn_skipn n l); apply in_or_app; left; exact H.
Qed.

Lemma filter_result_eq : forall lower movies fmd ft genre cast min_rating N,
  filter_movies_by_criteria lower movies fmd ft genre cast min_rating N =
  map (movie_result fmd ft)
    (firstn (Nat.max 1 (Z.to_nat N))
       (filter (matches_movie lower fmd genre cast min_rating) movies)).
Proof.
  intros; unfold filter_movies_by_criteria, filter_movies_by_criteria_traced.
  rewrite filter_loop_results; simpl; rewrite Nat.sub_0_r; reflexivity.
Qed.

Lemma filter_enumerate : forall {A} (f : A -> bool) l i,
  filter f l = map snd (filter (fun x => f (snd x)) (enumerate_from i l)).
Proof.
  intros A f l; induction l as [| x t IH]; intros i; simpl; [reflexivity|].
  destruct (f x); simpl; rewrite (IH (S i)); reflexivity.
Qed.

Lemma StronglySorted_filter : forall {A} (R : A -> A -> Prop) f l,
  StronglySorted R l -> StronglySorted R (filter f l).
Proof.
  intros A R f l; induction l as [| x t IH]; intros H; simpl; [constructor|].
  apply StronglySorted_inv in H as [Ht Hx].
  destruct (f x); [|apply IH; exact Ht].
  constructor; [apply IH; exact Ht|].
  rewrite Forall_forall in Hx |- *; intros y Hy; apply filter_In in Hy as [Hy _].
  apply Hx; exact Hy.
Qed.

Lemma enumerate_from_positions : forall {A} (l : list A) i,
  StronglySorted lt (map fst (enumerate_from i l)).
Proof.
  intros A l; induction l as [| x t IH]; intros i; simpl; constructor; [apply IH|].
  apply Forall_forall; intros k Hk; apply in_map_iff in Hk as [[j a] [Hj Hin]].
  simpl in Hj; subst; apply enumerate_from_In in Hin as [Hk _]; lia.
Qed.

Lemma StronglySorted_map_fst_filter : forall {A} (l : list (nat * A)) f,
  StronglySorted lt (map fst l) -> StronglySorted lt (map fst (filter f l)).
Proof.
  intros A l f; induction l as [| x t IH]; intros H; simpl; [constructor|].
  simpl in H; apply StronglySorted_inv in H as [Ht Hx].
  destruct (f x); simpl; [|apply IH; exact Ht].
  constructor; [apply IH; exact Ht|].
  rewrite Forall_forall in Hx |- *; intros k Hk.
  apply in_map_iff in Hk as [y [Hy Hin]]; apply filter_In in Hin as [Hin _].
  apply Hx; rewrite <- Hy; apply in_map; exact Hin.
Qed.

(** Every collected result satisfies the three predicates, and the results
    are the records of increasing catalog positions. *)
Lemma filter_results_facts : forall lower movies fmd ft genre cast min_rating N,
  let res := filter_movies_by_criteria lower movies fmd ft genre cast min_rating N in
  Forall (fun r => contains (lower genre) (lower (Genres r)) = true /\
                   contains (lower cast) (lower (Cast r)) = true /\
                   exists q, py_float (Rating r) = Ok q /\ (min_rating <= q)%Q) res /\
  exists ks, Sorted lt ks /\
    Forall2 (fun k r => exists m, nth_error movies k = Some m /\
                                  r = movie_result fmd ft m) ks res.
Proof.
  intros lower movies fmd ft genre cast min_rating N res; subst res.
  rewrite filter_result_eq, (filter_enumerate _ _ 0), firstn_map, map_map.
  set (E := firstn _ (filter _ (enumerate_from 0 movies))).
  assert (HE : forall x, In x E ->
            nth_error movies (fst x) = Some (snd x) /\
            matches_movie lower fmd genre cast min_rating (snd x) = true).
  { intros [k m] Hx; subst E.
    apply in_firstn_in, filter_In in Hx as [Hx Hm]; split; [|exact Hm].
    apply enumerate_from_In in Hx as [_ Hx]; rewrite Nat.sub_0_r in Hx; exact Hx. }
  split.
  - apply Forall_forall; intros r Hr; apply in_map_iff in Hr as [x [Hx Hin]]; subst r.
    destruct (HE x Hin) as [_ Hm]; unfold matches_movie in Hm; unfold movie_result; simpl.
    destruct (contains _ (lower (d_genres _))); [|discriminate].
    destruct (contains _ (lower (d_cast _))); [|discriminate].
    simpl in Hm; split; [reflexivity|]; split; [reflexivity|].
    destruct (py_float _) as [q|]; [|discriminate].
    exists q; split; [reflexivity | apply Qle_bool_iff; exact Hm].
  - exists (map fst E); split.
    + apply StronglySorted_Sorted; subst E; rewrite <- firstn_map.
      apply StronglySorted_firstn, StronglySorted_map_fst_filter, enumerate_from_positions.
    + clear -HE; induction E as [| x t IH]; simpl; constructor.
      * exists (snd x); split; [apply HE; left; reflexivity | reflexivity].
      * apply IH; intros y Hy; apply HE; right; exact Hy.
Qed.

Lemma contains_empty : forall s, contains "" s = true.
Proof. intros [| c s]; reflexivity. Qed.

Lemma nth_error_in_firstn : forall {A} (l : list A) p x,
  nth_error l p = Some x -> In x (firstn (S p) l).
Proof.
  intros A l; induction l as [| y t IH]; intros p x H; [destruct p; discriminate|].
  destruct p as [| p]; simpl in H |- *.
  - left; inversion H; reflexivity.
  - right; apply IH; exact H.
Qed.

(** C3: every result of [filter_movies_by_criteria lower] has a Genres string
    containing [genre] and a Cast string containing [cast] (both lowered),
    and a Rating that parses as a number at least [min_rating]; the results
    are the records of strictly increasing catalog positions. *)
Theorem filter_results_match : forall lower movies fmd ft genre cast min_rating N,
  let res := filter_movies_by_criteria lower movies fmd ft genre cast min_rating N in
  Forall (fun r => contains (lower genre) (lower (Genres r)) = true /\
                   contains (lower cast) (lower (Cast r)) = true /\
                   exists q, py_float (Rating r) = Ok q /\ (min_rating <= q)%Q) res /\
  exists ks, Sorted lt ks /\
    Forall2 (fun k r => exists m, nth_error movies k = Some m /\
                                  r = movie_result fmd ft m) ks res.
Proof. intros; apply filter_results_facts. Qed.

(** C4: for a count [N >= 1] (the only caller passes the value of a
    slider ranging over 1..20), at most [N]
    results are returned, and no position after the one holding the
    [N]-th match is scanned (no metadata or trailer fetch happens there). *)
Theorem filter_quota : forall lower movies fmd ft genre cast min_rating N,
  (1 <= N)%Z ->
  (Z.of_nat (List.length (filter_movies_by_criteria lower movies fmd ft genre cast min_rating N))
     <= N)%Z /\
  (forall p k,
     is_match lower movies fmd genre cast min_rating p = true ->
     Z.of_nat (count_matches lower movies fmd genre cast min_rating (S p)) = N ->
     In k (snd (filter_movies_by_criteria_traced lower movies fmd ft genre cast min_rating N)) ->
     (k <= p)%nat).
Proof.
  intros lower movies fmd ft genre cast min_rating N HN; split.
  - rewrite filter_result_eq, length_map, length_firstn; lia.
  - intros p k Hp Hc Hk; unfold is_match in Hp.
    destruct (nth_error movies p) as [m|] eqn:Hm; [|discriminate].
    unfold filter_movies_by_criteria_traced in Hk.
    pose proof (filter_loop_trace_bound lower fmd ft genre cast min_rating N movies 0 [] k p m
                  Hk Hm Hp) as H.
    apply H; rewrite <- Hc; unfold count_matches; cbn [List.length Nat.add]; lia.
Qed.

Lemma filter_quota_witness :
  (1 <= 1)%Z /\
  (Z.of_nat (List.length (filter_movies_by_criteria ascii_lower
     [mk_movie 1 "A"; mk_movie 2 "B"; mk_movie 3 "C"]
     (fun i => mk_details "p" "Drama" (RNum 6) "X") (fun _ => "t") "drama" "" 5 1))
     <= 1)%Z /\
  (forall p k,
     is_match ascii_lower [mk_movie 1 "A"; mk_movie 2 "B"; mk_movie 3 "C"]
       (fun i => mk_details "p" "Drama" (RNum 6) "X") "drama" "" 5 p = true ->
     Z.of_nat (count_matches ascii_lower [mk_movie 1 "A"; mk_movie 2 "B"; mk_movie 3 "C"]
       (fun i => mk_details "p" "Drama" (RNum 6) "X") "drama" "" 5 (S p)) = 1%Z ->
     In k (snd (filter_movies_by_criteria_traced ascii_lower
       [mk_movie 1 "A"; mk_movie 2 "B"; mk_movie 3 "C"]
       (fun i => mk_details "p" "Drama" (RNum 6) "X") (fun _ => "t") "drama" "" 5 1)) ->
     (k <= p)%nat).
Proof.
  split; [lia|].
  apply (filter_quota ascii_lower _ _ _ _ _ _ 1); lia.
Defined.

(** C6: a movie whose Rating is the ['N/A'] sentinel is never among the
    results (for every [min_rating], in particular [min_rating > 0]), and it
    does not stop the scan: the next catalog position is still scanned, and
    every later match within the quota is still collected. *)
Theorem filter_skips_unknown : forall lower movies fmd ft genre cast min_rating N,
  let res := filter_movies_by_criteria lower movies fmd ft genre cast min_rating N in
  let tr := snd (filter_movies_by_criteria_traced lower movies fmd ft genre cast min_rating N) in
  (forall r, In r res -> Rating r <> RNA) /\
  (forall k m, In k tr -> nth_error movies k = Some m ->
     d_rating (fmd (movie_id m)) = RNA ->
     (S k < List.length movies)%nat -> In (S k) tr) /\
  (forall p m, nth_error movies p = Some m ->
     matches_movie lower fmd genre cast min_rating m = true ->
     (Z.of_nat (count_matches lower movies fmd genre cast min_rating (S p)) <= N)%Z ->
     In (movie_result fmd ft m) res).
Proof.
  intros lower movies fmd ft genre cast min_rating N res tr; subst res tr; split; [|split].
  - intros r Hr E.
    destruct (filter_results_facts lower movies fmd ft genre cast min_rating N) as [Hf _].
    rewrite Forall_forall in Hf; destruct (Hf r Hr) as [_ [_ [q [Hq _]]]].
    rewrite E in Hq; discriminate.
  - intros k m Hk Hm Hna Hlen.
    unfold filter_movies_by_criteria_traced in Hk |- *.
    apply (filter_loop_trace_continue lower fmd ft genre cast min_rating N movies 0 [] k m Hk);
      [lia | rewrite Nat.sub_0_r; exact Hm | | lia].
    unfold matches_movie; rewrite Hna; simpl; apply andb_false_r.
  - intros p m Hm Hmt Hc.
    rewrite filter_result_eq; apply in_map.
    rewrite <- (firstn_skipn (S p) movies), filter_app, firstn_app.
    apply in_or_app; left.
    unfold count_matches in Hc.
    rewrite firstn_all2 by lia.
    apply filter_In; split; [apply nth_error_in_firstn; exact Hm | exact Hmt].
Qed.

(** C7 (amended): for [N >= 1], [filter_movies_by_criteria "" "" 0.0 N]
    returns, in catalog order, the first [N] catalog entries whose Rating
    parses as a number at least [0] (entries with the ['N/A'] sentinel are
    skipped); when every Rating is such a number, these are the first
    [min(N, catalogSize)] catalog entries.  Of Python's [str.lower] only
    [''.lower() == ''] is used. *)
Theorem filter_trivial_criteria : forall lower movies fmd ft N,
  lower "" = "" ->
  (1 <= N)%Z ->
  filter_movies_by_criteria lower movies fmd ft "" "" 0 N =
    map (movie_result fmd ft) (firstn (Z.to_nat N) (filter (rated_nonneg fmd) movies)) /\
  (forallb (rated_nonneg fmd) movies = true ->
   filter_movies_by_criteria lower movies fmd ft "" "" 0 N =
     map (movie_result fmd ft) (firstn (Z.to_nat N) movies)).
Proof.
  intros lower movies fmd ft N Hl HN.
  assert (Heq : filter_movies_by_criteria lower movies fmd ft "" "" 0 N =
    map (movie_result fmd ft) (firstn (Z.to_nat N) (filter (rated_nonneg fmd) movies))).
  { rewrite filter_result_eq.
    replace (Nat.max 1 (Z.to_nat N)) with (Z.to_nat N) by lia.
    f_equal; f_equal; apply filter_ext; intros m.
    unfold matches_movie, rated_nonneg; rewrite Hl, !contains_empty; simpl.
    destruct (d_rating (fmd (movie_id m))); reflexivity. }
  split; [exact Heq|].
  intros Hall; rewrite Heq; f_equal; f_equal.
  clear Heq; induction movies as [| m t IH]; [reflexivity|].
  simpl in Hall |- *; apply andb_prop in Hall as [Hm Ht].
  rewrite Hm, IH by exact Ht; reflexivity.
Qed.

Lemma filter_trivial_criteria_witness :
  ascii_lower "" = "" /\ (1 <= 2)%Z /\
  filter_movies_by_criteria ascii_lower [mk_movie 1 "A"; mk_movie 2 "B"; mk_movie 3 "C"]
    (fun i => mk_details "p" "Drama" (if (i =? 2)%Z then RNA else RNum 7) "X")
    (fun _ => "t") "" "" 0 2 =
  map (movie_result (fun i => mk_details "p" "Drama" (if (i =? 2)%Z then RNA else RNum 7) "X")
                    (fun _ => "t"))
      (firstn (Z.to_nat 2)
         (filter (rated_nonneg (fun i => mk_details "p" "Drama"
                                          (if (i =? 2)%Z then RNA else RNum 7) "X"))
            [mk_movie 1 "A"; mk_movie 2 "B"; mk_movie 3 "C"])) /\
  (forallb (rated_nonneg (fun i => mk_details "p" "Drama"
                                     (if (i =? 2)%Z then RNA else RNum 7) "X"))
     [mk_movie 1 "A"; mk_movie 2 "B"; mk_movie 3 "C"] = true ->
   filter_movies_by_criteria ascii_lower [mk_movie 1 "A"; mk_movie 2 "B"; mk_movie 3 "C"]
     (fun i => mk_details "p" "Drama" (if (i =? 2)%Z then RNA else RNum 7) "X")
     (fun _ => "t") "" "" 0 2 =
   map (movie_result (fun i => mk_details "p" "Drama" (if (i =? 2)%Z then RNA else RNum 7) "X")
                     (fun _ => "t"))
       (firstn (Z.to_nat 2) [mk_movie 1 "A"; mk_movie 2 "B"; mk_movie 3 "C"])).
Proof.
  split; [reflexivity|]; split; [lia|].
  apply filter_trivial_criteria; [reflexivity | lia].
Defined.

(** C7 (counterexample): a movie whose Rating is the ['N/A'] sentinel is
    not returned by [filter_movies_by_criteria "" "" 0.0 1], although it is
    the first catalog entry. *)
Lemma filter_trivial_criteria_skips_unknown :
  filter_movies_by_criteria ascii_lower [mk_movie 1 "A"]
    (fun _ => mk_details "p" "Drama" RNA "X") (fun _ => "t") "" "" 0 1 = [] /\
  map (movie_result (fun _ => mk_details "p" "Drama" RNA "X") (fun _ => "t"))
      (firstn 1 [mk_movie 1 "A"]) <> [].
Proof. split; [reflexivity | discriminate]. Qed.

(** C9: with [num_results <= 0] and at least one catalog movie satisfying
    the three predicates, exactly one result is returned: the quota check
    runs only after the first match is appended. *)
Theorem filter_nonpositive_count : forall lower movies fmd ft genre cast min_rating N m,
  (N <= 0)%Z ->
  In m movies -> matches_movie lower fmd genre cast min_rating m = true ->
  List.length (filter_movies_by_criteria lower movies fmd ft genre cast min_rating N) = 1%nat.
Proof.
  intros lower movies fmd ft genre cast min_rating N m HN Hin Hm.
  rewrite filter_result_eq, length_map, length_firstn.
  assert (Hpos : (0 < List.length (filter (matches_movie lower fmd genre cast min_rating) movies))%nat).
  { destruct (filter _ movies) eqn:E; [|simpl; lia].
    assert (In m (filter (matches_movie lower fmd genre cast min_rating) movies))
      by (apply filter_In; split; assumption).
    rewrite E in H; contradiction. }
  lia.
Qed.

Lemma filter_nonpositive_count_witness :
  (0 <= 0)%Z /\ In (mk_movie 2 "B") [mk_movie 1 "A"; mk_movie 2 "B"] /\
  matches_movie ascii_lower (fun i => mk_details "p" (if (i =? 2)%Z then "Comedy" else "Drama") (RNum 6) "X")
    "comedy" "" 5 (mk_movie 2 "B") = true /\
  List.length (filter_movies_by_criteria ascii_lower [mk_movie 1 "A"; mk_movie 2 "B"]
    (fun i => mk_details "p" (if (i =? 2)%Z then "Comedy" else "Drama") (RNum 6) "X")
    (fun _ => "t") "comedy" "" 5 0) = 1%nat.
Proof.
  assert (Hin : In (mk_movie 2 "B") [mk_movie 1 "A"; mk_movie 2 "B"])
    by (right; left; reflexivity).
  assert (Hm : matches_movie ascii_lower (fun i => mk_details "p" (if (i =? 2)%Z then "Comedy" else "Drama")
                                         (RNum 6) "X")
                 "comedy" "" 5 (mk_movie 2 "B") = true) by reflexivity.
  split; [lia|]; split; [exact Hin|]; split; [exact Hm|].
  apply (filter_nonpositive_count ascii_lower _ _ _ _ _ _ 0 _ ltac:(lia) Hin Hm).
Defined.

(** ** [fetch_trailer] *)

Section TrailerScan.
Import Trailer.

Lemma scan_videos_passed : forall py_repr pre rest,
  Forall passed_over pre ->
  scan_videos py_repr (pre ++ rest) = scan_videos py_repr rest.
Proof.
  intros py_repr pre rest H; induction H as [| v pre Hv _ IH]; [reflexivity|].
  destruct Hv as [ty [Hty Hsite]].
  simpl; rewrite Hty; simpl.
  destruct (eq_str ty "Trailer") eqn:Et; [|exact IH].
  destruct (Hsite eq_refl) as [site [Hs Es]].
  rewrite Hs; simpl; rewrite Es; exact IH.
Qed.

Lemma scan_videos_found : forall py_repr v post key,
  youtube_trailer v key ->
  scan_videos py_repr (v :: post) = Ok (watch_url py_repr key).
Proof.
  intros py_repr v post key [ty [site [Hty [Et [Hs [Es Hk]]]]]].
  simpl; rewrite Hty; simpl; rewrite Et, Hs; simpl; rewrite Es, Hk; reflexivity.
Qed.

Lemma scan_videos_stuck : forall py_repr v post,
  ~ passed_over v -> (forall key, ~ youtube_trailer v key) ->
  exists e, scan_videos py_repr (v :: post) = Raise e.
Proof.
  intros py_repr v post Hp Hy; simpl.
  destruct (subscript v "type") as [ty|e] eqn:Hty; simpl; [|exists e; reflexivity].
  destruct (eq_str ty "Trailer") eqn:Et.
  - destruct (subscript v "site") as [site|e] eqn:Hs; simpl; [|exists e; reflexivity].
    destruct (eq_str site "YouTube") eqn:Es.
    + destruct (subscript v "key") as [key|e] eqn:Hk; simpl; [|exists e; reflexivity].
      exfalso; apply (Hy key); exists ty, site; repeat split; assumption.
    + exfalso; apply Hp; exists ty; split; [exact Hty|].
      intros _; exists site; split; assumption.
  - exfalso; apply Hp; exists ty; split; [exact Hty|].
    intros E; rewrite Et in E; discriminate.
Qed.

Lemma scan_videos_chars : forall py_repr ss,
  (exists e, scan_videos py_repr (map JStr ss) = Raise e) \/
  scan_videos py_repr (map JStr ss) = Ok fallback.
Proof.
  intros py_repr [|s ss]; [right; reflexivity | left; exists TypeError; reflexivity].
Qed.

Lemma fetch_trailer_results : forall py_repr kvs r,
  py_get (JObj kvs) "results" (JArr []) = Ok r ->
  fetch_trailer py_repr (Ok (JObj kvs)) =
  match (vs <- iter_items r ;; scan_videos py_repr vs) with
  | Ok url => url
  | Raise _ => fallback
  end.
Proof.
  intros py_repr kvs r H; unfold fetch_trailer; unfold bind at 1; cbv beta iota.
  rewrite H; reflexivity.
Qed.

End TrailerScan.

(** C8 (amended): [fetch_trailer] never propagates an error.  A failure of
    the request or of decoding, a response that is not an object, or a
    [results] value that is not a list gives the fallback
    [https://youtube.com] (a missing [results] reads as the empty list).
    When [results] is a list [pre ++ post] whose entries in [pre] are all
    passed over by the scan: if [post] is empty the result is the
    fallback; if [post] starts with a "Trailer" entry on "YouTube" the
    result is the watch URL of its key; if [post] starts with an entry that
    is neither passed over nor such a trailer (an entry without [type], a
    "Trailer" entry without [site], a YouTube trailer without [key]) the
    result is the fallback, whatever follows. *)
Theorem fetch_trailer_scan : forall py_repr,
  (forall e, Trailer.fetch_trailer py_repr (Raise e) = Trailer.fallback) /\
  (forall data, (forall kvs, data <> Trailer.JObj kvs) ->
     Trailer.fetch_trailer py_repr (Ok data) = Trailer.fallback) /\
  (forall kvs r, Trailer.py_get (Trailer.JObj kvs) "results" (Trailer.JArr []) = Ok r ->
     (forall vs, r <> Trailer.JArr vs) ->
     Trailer.fetch_trailer py_repr (Ok (Trailer.JObj kvs)) = Trailer.fallback) /\
  (forall kvs pre post,
     Trailer.py_get (Trailer.JObj kvs) "results" (Trailer.JArr [])
       = Ok (Trailer.JArr (pre ++ post)) ->
     Forall Trailer.passed_over pre ->
     (post = [] -> Trailer.fetch_trailer py_repr (Ok (Trailer.JObj kvs)) = Trailer.fallback) /\
     (forall v post' key, post = v :: post' -> Trailer.youtube_trailer v key ->
        Trailer.fetch_trailer py_repr (Ok (Trailer.JObj kvs)) = Trailer.watch_url py_repr key) /\
     (forall v post', post = v :: post' -> ~ Trailer.passed_over v ->
        (forall key, ~ Trailer.youtube_trailer v key) ->
        Trailer.fetch_trailer py_repr (Ok (Trailer.JObj kvs)) = Trailer.fallback)).
Proof.
  intros py_repr; split; [|split; [|split]].
  - intros e; reflexivity.
  - intros data Hd; unfold Trailer.fetch_trailer.
    destruct data; try reflexivity.
    exfalso; eapply Hd; reflexivity.
  - intros kvs r Hr Hn; rewrite (fetch_trailer_results py_repr kvs r Hr).
    destruct r as [| | | | s | l | kvs']; try reflexivity.
    + simpl bind.
      destruct (scan_videos_chars py_repr
                  (map (fun c => String c EmptyString) (list_ascii_of_string s)))
        as [[e E] | E]; rewrite map_map in E; rewrite E; reflexivity.
    + exfalso; eapply Hn; reflexivity.
    + simpl bind.
      destruct (scan_videos_chars py_repr (map fst kvs')) as [[e E] | E];
        rewrite map_map in E; rewrite E; reflexivity.
  - intros kvs pre post Hr Hpre.
    rewrite (fetch_trailer_results py_repr kvs _ Hr); simpl bind.
    rewrite (scan_videos_passed py_repr pre post Hpre).
    split; [|split].
    + intros ->; reflexivity.
    + intros v post' key -> Hy; rewrite (scan_videos_found py_repr v post' key Hy); reflexivity.
    + intros v post' -> Hp Hy.
      destruct (scan_videos_stuck py_repr v post' Hp Hy) as [e E]; rewrite E; reflexivity.
Qed.

(** The scan of C8 on a response whose first entry is a "Teaser" with no
    [site] or [key] (passed over without reading them) and whose second is
    a Vimeo trailer: the third entry, a YouTube trailer, gives the URL. *)
Lemma fetch_trailer_scan_witness :
  Trailer.py_get (Trailer.JObj
    [("id", Trailer.JNum 550);
     ("results", Trailer.JArr
        [Trailer.JObj [("type", Trailer.JStr "Teaser")];
         Trailer.JObj [("type", Trailer.JStr "Trailer"); ("site", Trailer.JStr "Vimeo")];
         Trailer.JObj [("type", Trailer.JStr "Trailer"); ("site", Trailer.JStr "YouTube");
                       ("key", Trailer.JStr "SUXWAEX2jlg")]])]) "results" (Trailer.JArr [])
  = Ok (Trailer.JArr
        ([Trailer.JObj [("type", Trailer.JStr "Teaser")];
          Trailer.JObj [("type", Trailer.JStr "Trailer"); ("site", Trailer.JStr "Vimeo")]]
         ++ [Trailer.JObj [("type", Trailer.JStr "Trailer"); ("site", Trailer.JStr "YouTube");
                           ("key", Trailer.JStr "SUXWAEX2jlg")]])) /\
  Forall Trailer.passed_over
    [Trailer.JObj [("type", Trailer.JStr "Teaser")];
     Trailer.JObj [("type", Trailer.JStr "Trailer"); ("site", Trailer.JStr "Vimeo")]] /\
  Trailer.youtube_trailer
    (Trailer.JObj [("type", Trailer.JStr "Trailer"); ("site", Trailer.JStr "YouTube");
                   ("key", Trailer.JStr "SUXWAEX2jlg")]) (Trailer.JStr "SUXWAEX2jlg") /\
  Trailer.fetch_trailer (fun _ => EmptyString) (Ok (Trailer.JObj
    [("id", Trailer.JNum 550);
     ("results", Trailer.JArr
        [Trailer.JObj [("type", Trailer.JStr "Teaser")];
         Trailer.JObj [("type", Trailer.JStr "Trailer"); ("site", Trailer.JStr "Vimeo")];
         Trailer.JObj [("type", Trailer.JStr "Trailer"); ("site", Trailer.JStr "YouTube");
                       ("key", Trailer.JStr "SUXWAEX2jlg")]])]))
  = "https://www.youtube.com/watch?v=SUXWAEX2jlg".
Proof.
  assert (Hr : Trailer.py_get (Trailer.JObj
    [("id", Trailer.JNum 550);
     ("results", Trailer.JArr
        [Trailer.JObj [("type", Trailer.JStr "Teaser")];
         Trailer.JObj [("type", Trailer.JStr "Trailer"); ("site", Trailer.JStr "Vimeo")];
         Trailer.JObj [("type", Trailer.JStr "Trailer"); ("site", Trailer.JStr "YouTube");
                       ("key", Trailer.JStr "SUXWAEX2jlg")]])]) "results" (Trailer.JArr [])
  = Ok (Trailer.JArr
        ([Trailer.JObj [("type", Trailer.JStr "Teaser")];
          Trailer.JObj [("type", Trailer.JStr "Trailer"); ("site", Trailer.JStr "Vimeo")]]
         ++ [Trailer.JObj [("type", Trailer.JStr "Trailer"); ("site", Trailer.JStr "YouTube");
                           ("key", Trailer.JStr "SUXWAEX2jlg")]]))) by reflexivity.
  assert (Hp : Forall Trailer.passed_over
    [Trailer.JObj [("type", Trailer.JStr "Teaser")];
     Trailer.JObj [("type", Trailer.JStr "Trailer"); ("site", Trailer.JStr "Vimeo")]]).
  { constructor; [|constructor; [|constructor]].
    - exists (Trailer.JStr "Teaser"); split; [reflexivity | discriminate].
    - exists (Trailer.JStr "Trailer"); split; [reflexivity|].
      intros _; exists (Trailer.JStr "Vimeo"); split; reflexivity. }
  assert (Hy : Trailer.youtube_trailer
    (Trailer.JObj [("type", Trailer.JStr "Trailer"); ("site", Trailer.JStr "YouTube");
                   ("key", Trailer.JStr "SUXWAEX2jlg")]) (Trailer.JStr "SUXWAEX2jlg")).
  { exists (Trailer.JStr "Trailer"), (Trailer.JStr "YouTube"); repeat split. }
  split; [exact Hr|]; split; [exact Hp|]; split; [exact Hy|].
  destruct (fetch_trailer_scan (fun _ => EmptyString)) as [_ [_ [_ H]]].
  destruct (H _ _ _ Hr Hp) as [_ [Hf _]].
  exact (Hf _ [] _ eq_refl Hy).
Defined.

(** C8 (counterexample): a response whose first entry lacks a [type]
    field yields the fallback, although a later entry is a YouTube trailer
    with key "abc": the [KeyError] is caught by the bare [except:]. *)
Lemma fetch_trailer_malformed_entry :
  Trailer.fetch_trailer (fun _ => EmptyString) (Ok (Trailer.JObj
    [("results", Trailer.JArr
        [Trailer.JObj [("site", Trailer.JStr "YouTube")];
         Trailer.JObj [("type", Trailer.JStr "Trailer"); ("site", Trailer.JStr "YouTube");
                       ("key", Trailer.JStr "abc")]])]))
  = "https://youtube.com" /\
  "https://youtube.com" <> Trailer.watch_url (fun _ => EmptyString) (Trailer.JStr "abc").
Proof. split; [reflexivity | discriminate]. Qed.

(** * Further properties of the code *)

(** ** [recommend] *)

Lemma first_index_from_earliest : forall movie ms k p,
  first_index_from k movie ms = Ok p ->
  forall q m, (k <= q < p)%nat -> nth_error ms (q - k) = Some m -> title m <> movie.
Proof.
  intros movie ms; induction ms as [| m0 t IH]; simpl; intros k p H q m Hq Hm;
    [discriminate|].
  destruct (String.eqb (title m0) movie) eqn:E.
  - inversion H; subst; lia.
  - destruct (Nat.eq_dec q k) as [-> | Hne].
    + rewrite Nat.sub_diag in Hm; simpl in Hm; inversion Hm; subst.
      intro Ht; apply String.eqb_eq in Ht; congruence.
    + replace (q - k)%nat with (S (q - S k)) in Hm by lia; simpl in Hm.
      apply (IH (S k) p H q m); [lia | exact Hm].
Qed.

(** X1: the title lookup picks the earliest catalog position holding the
    title, and the ranking is built from that position's row. *)
Theorem recommend_earliest_title : forall movies similarity movie N sel,
  recommend_ranked movies similarity movie N = Ok sel ->
  exists p m row,
    nth_error movies p = Some m /\ title m = movie /\
    (forall q m', (q < p)%nat -> nth_error movies q = Some m' -> title m' <> movie) /\
    nth_error similarity p = Some row /\
    sel = py_slice (sort_desc (enumerate row)) 1 (N + 1).
Proof.
  intros movies similarity movie N sel H; unfold recommend_ranked in H.
  destruct (first_index_from 0 movie movies) as [p|e] eqn:Hp; simpl in H; [|discriminate].
  destruct (nth_error similarity p) as [row|] eqn:Hrow; simpl in H; [|discriminate].
  inversion H; subst sel.
  destruct (first_index_from_ok _ _ _ _ Hp) as [_ [m [Hm Ht]]]; rewrite Nat.sub_0_r in Hm.
  exists p, m, row; split; [exact Hm|]; split; [exact Ht|].
  split; [|split; [exact Hrow | reflexivity]].
  intros q m' Hq Hm'; apply (first_index_from_earliest movie movies 0 p Hp q m'); [lia|].
  rewrite Nat.sub_0_r; exact Hm'.
Qed.

Lemma recommend_earliest_title_witness :
  recommend_ranked [mk_movie 1 "A"; mk_movie 2 "B"; mk_movie 3 "A"]
    [[1; 0.2; 0.9]; [0.2; 1; 0.4]; [0.9; 0.4; 1]]%Q "A" 1 = Ok [(2%nat, 0.9%Q)] /\
  exists p m row,
    nth_error [mk_movie 1 "A"; mk_movie 2 "B"; mk_movie 3 "A"] p = Some m /\ title m = "A" /\
    (forall q m', (q < p)%nat ->
       nth_error [mk_movie 1 "A"; mk_movie 2 "B"; mk_movie 3 "A"] q = Some m' ->
       title m' <> "A") /\
    nth_error [[1; 0.2; 0.9]; [0.2; 1; 0.4]; [0.9; 0.4; 1]]%Q p = Some row /\
    [(2%nat, 0.9%Q)] = py_slice (sort_desc (enumerate row)) 1 (1 + 1).
Proof.
  assert (H : recommend_ranked [mk_movie 1 "A"; mk_movie 2 "B"; mk_movie 3 "A"]
    [[1; 0.2; 0.9]; [0.2; 1; 0.4]; [0.9; 0.4; 1]]%Q "A" 1 = Ok [(2%nat, 0.9%Q)])
    by reflexivity.
  split; [exact H | exact (recommend_earliest_title _ _ _ _ _ H)].
Defined.

Lemma NoDup_firstn_skipn : forall {A} (l : list A) n k,
  NoDup l -> NoDup (firstn n (skipn k l)).
Proof.
  intros A l n k H.
  rewrite <- (firstn_skipn k l) in H; apply NoDup_app_remove_l in H.
  rewrite <- (firstn_skipn n (skipn k l)) in H; apply NoDup_app_remove_r in H; exact H.
Qed.

(** X2: a ranking never lists a catalog position twice. *)
Theorem recommend_no_repeat : forall movies similarity movie N sel,
  recommend_ranked movies similarity movie N = Ok sel -> NoDup (map fst sel).
Proof.
  intros movies similarity movie N sel H; unfold recommend_ranked in H.
  destruct (first_index_from 0 movie movies) as [p|e]; simpl in H; [|discriminate].
  destruct (nth_error similarity p) as [row|]; simpl in H; [|discriminate].
  inversion H; subst sel; unfold py_slice.
  rewrite <- firstn_map, <- skipn_map.
  assert (Hnd : NoDup (map fst (sort_desc (enumerate row)))).
  { eapply Permutation_NoDup; [apply Permutation_map; symmetry; apply sort_desc_perm|].
    apply enumerate_from_NoDup. }
  apply NoDup_firstn_skipn; exact Hnd.
Qed.

Lemma recommend_no_repeat_witness :
  recommend_ranked [mk_movie 1 "A"; mk_movie 2 "B"; mk_movie 3 "C"]
    [[1; 0.5; 0.5]; [0.5; 1; 0.2]; [0.5; 0.2; 1]]%Q "A" 5
    = Ok [(1%nat, 0.5%Q); (2%nat, 0.5%Q)] /\
  NoDup (map fst [(1%nat, 0.5%Q); (2%nat, 0.5%Q)]).
Proof.
  assert (H : recommend_ranked [mk_movie 1 "A"; mk_movie 2 "B"; mk_movie 3 "C"]
    [[1; 0.5; 0.5]; [0.5; 1; 0.2]; [0.5; 0.2; 1]]%Q "A" 5
    = Ok [(1%nat, 0.5%Q); (2%nat, 0.5%Q)]) by reflexivity.
  split; [exact H | exact (recommend_no_repeat _ _ _ _ _ H)].
Defined.

Lemma map_m_app : forall {A B} (f : A -> outcome B) l1 l2,
  map_m f (l1 ++ l2) = (ys1 <- map_m f l1 ;; ys2 <- map_m f l2 ;; Ok (ys1 ++ ys2)%list).
Proof.
  intros A B f l1 l2; induction l1 as [| x t IH]; simpl.
  - destruct (map_m f l2); reflexivity.
  - rewrite IH; destruct (f x); simpl; [|reflexivity].
    destruct (map_m f t); simpl; [|reflexivity].
    destruct (map_m f l2); reflexivity.
Qed.

Lemma firstn_prefix : forall {A} (l : list A) n m,
  (n <= m)%nat -> exists s, firstn m l = (firstn n l ++ s)%list.
Proof.
  intros A l n m Hnm; exists (firstn (m - n) (skipn n l)).
  rewrite <- (firstn_skipn n l) at 1.
  rewrite firstn_app, firstn_firstn, length_firstn.
  destruct (Nat.le_gt_cases n (List.length l)) as [Hle | Hgt].
  - replace (Nat.min m n) with n by lia; replace (Nat.min n (List.length l)) with n by lia.
    reflexivity.
  - rewrite skipn_all2 by lia; rewrite !firstn_nil.
    replace (Nat.min m n) with n by lia; reflexivity.
Qed.

(** X3: raising the count only extends the recommendation list: the results
    for [N] are a prefix of the results for any [M >= N]. *)
Theorem recommend_prefix : forall movies similarity fmd ft movie N M r1 r2,
  (0 <= N <= M)%Z ->
  recommend movies similarity fmd ft movie N = Ok r1 ->
  recommend movies similarity fmd ft movie M = Ok r2 ->
  exists s, r2 = (r1 ++ s)%list.
Proof.
  intros movies similarity fmd ft movie N M r1 r2 HNM H1 H2.
  unfold recommend, recommend_ranked in H1, H2.
  destruct (first_index_from 0 movie movies) as [p|e]; simpl in H1, H2; [|discriminate].
  destruct (nth_error similarity p) as [row|]; simpl in H1, H2; [|discriminate].
  set (g := fun i : nat * Q => m <- of_option IndexError (nth_error movies (fst i)) ;;
                               Ok (movie_result fmd ft m)) in H1, H2.
  set (L := sort_desc (enumerate row)) in H1, H2.
  destruct L as [| x t] eqn:EL.
  - unfold py_slice in H1, H2.
    rewrite !skipn_nil, !firstn_nil in H1, H2; simpl in H1, H2.
    inversion H1; inversion H2; exists []; reflexivity.
  - rewrite py_slice_tail in H1, H2 by (simpl; lia).
    destruct (firstn_prefix (skipn 1 (x :: t)) (Z.to_nat N) (Z.to_nat M) ltac:(lia))
      as [s Hs].
    rewrite Hs, map_m_app, H1 in H2; simpl in H2.
    destruct (map_m g s) as [ys|e]; simpl in H2; [|discriminate].
    inversion H2; exists ys; reflexivity.
Qed.

Lemma recommend_prefix_witness :
  (0 <= 1 <= 2)%Z /\
  recommend [mk_movie 1 "A"; mk_movie 2 "B"; mk_movie 3 "C"]
    [[1; 0.8; 0.3]; [0.8; 1; 0.5]; [0.3; 0.5; 1]]%Q
    (fun _ => mk_details "p" "g" RNA "c") (fun _ => "t") "A" 1
    = Ok [mk_result "B" "p" "g" RNA "c" "t"] /\
  recommend [mk_movie 1 "A"; mk_movie 2 "B"; mk_movie 3 "C"]
    [[1; 0.8; 0.3]; [0.8; 1; 0.5]; [0.3; 0.5; 1]]%Q
    (fun _ => mk_details "p" "g" RNA "c") (fun _ => "t") "A" 2
    = Ok [mk_result "B" "p" "g" RNA "c" "t"; mk_result "C" "p" "g" RNA "c" "t"] /\
  exists s, [mk_result "B" "p" "g" RNA "c" "t"; mk_result "C" "p" "g" RNA "c" "t"]
            = ([mk_result "B" "p" "g" RNA "c" "t"] ++ s)%list.
Proof.
  assert (H1 : recommend [mk_movie 1 "A"; mk_movie 2 "B"; mk_movie 3 "C"]
    [[1; 0.8; 0.3]; [0.8; 1; 0.5]; [0.3; 0.5; 1]]%Q
    (fun _ => mk_details "p" "g" RNA "c") (fun _ => "t") "A" 1
    = Ok [mk_result "B" "p" "g" RNA "c" "t"]) by reflexivity.
  assert (H2 : recommend [mk_movie 1 "A"; mk_movie 2 "B"; mk_movie 3 "C"]
    [[1; 0.8; 0.3]; [0.8; 1; 0.5]; [0.3; 0.5; 1]]%Q
    (fun _ => mk_details "p" "g" RNA "c") (fun _ => "t") "A" 2
    = Ok [mk_result "B" "p" "g" RNA "c" "t"; mk_result "C" "p" "g" RNA "c" "t"])
    by reflexivity.
  split; [lia|]; split; [exact H1|]; split; [exact H2|].
  exact (recommend_prefix _ _ _ _ _ 1 2 _ _ ltac:(lia) H1 H2).
Defined.

Lemma StronglySorted_app_rel : forall {A} (R : A -> A -> Prop) l1 l2 x y,
  StronglySorted R (l1 ++ l2) -> In x l1 -> In y l2 -> R x y.
Proof.
  intros A R l1; induction l1 as [| z t IH]; intros l2 x y H Hx Hy; [contradiction|].
  simpl in H; apply StronglySorted_inv in H as [Ht Hz].
  destruct Hx as [<- | Hx].
  - rewrite Forall_forall in Hz; apply Hz, in_or_app; right; exact Hy.
  - eapply IH; eassumption.
Qed.

Lemma ranked_before_le : forall a b, ranked_before a b -> (snd b <= snd a)%Q.
Proof.
  intros a b [H | [H _]]; [apply Qlt_le_weak; exact H | rewrite H; apply Qle_refl].
Qed.

(** X4: the selection is the top of the ranking.  The entry [t] dropped by
    [distances[1:]] is the head [distances[0]] of the ranked row, the
    selection is the next [N] entries, [t] has the highest score of the
    row, and every other position left out scores at most as much as every
    selected one. *)
Theorem recommend_top_scores : forall movies similarity movie N sel p row,
  recommend_ranked movies similarity movie N = Ok sel ->
  first_index_from 0 movie movies = Ok p ->
  nth_error similarity p = Some row ->
  row <> [] -> (0 <= N)%Z ->
  exists t rest,
    sort_desc (enumerate row) = t :: rest /\ sel = firstn (Z.to_nat N) rest /\
    nth_error row (fst t) = Some (snd t) /\ ~ In (fst t) (map fst sel) /\
    (forall j q, nth_error row j = Some q -> (q <= snd t)%Q) /\
    (forall j q x, nth_error row j = Some q -> j <> fst t ->
       ~ In j (map fst sel) -> In x sel -> (q <= snd x)%Q).
Proof.
  intros movies similarity movie N sel p row H Hp Hrow Hne HN.
  unfold recommend_ranked in H; rewrite Hp in H; simpl in H; rewrite Hrow in H; simpl in H.
  inversion H; subst sel; clear H.
  assert (Hin : forall j q, nth_error row j = Some q -> In (j, q) (sort_desc (enumerate row))).
  { intros j q Hj; apply (Permutation_in _ (Permutation_sym (sort_desc_perm _))).
    apply (enumerate_from_nth row 0 j q Hj). }
  assert (Hrowof : forall x, In x (sort_desc (enumerate row)) -> nth_error row (fst x) = Some (snd x)).
  { intros [i q] Hx; apply (Permutation_in _ (sort_desc_perm _)) in Hx.
    apply enumerate_from_In in Hx as [_ Hx]; rewrite Nat.sub_0_r in Hx; exact Hx. }
  assert (Hnd : NoDup (map fst (sort_desc (enumerate row)))).
  { eapply Permutation_NoDup; [apply Permutation_map; symmetry; apply sort_desc_perm|].
    apply enumerate_from_NoDup. }
  pose proof (sort_desc_enumerate_sorted row 0) as Hss; fold (enumerate row) in Hss.
  destruct (sort_desc (enumerate row)) as [| t rest] eqn:EL.
  { destruct row as [| q r]; [congruence|].
    destruct (Hin 0%nat q eq_refl). }
  rewrite py_slice_tail by (simpl; lia); simpl skipn.
  simpl in Hnd; apply NoDup_cons_iff in Hnd as [Hnot _].
  apply StronglySorted_inv in Hss as [Hrest Ht].
  rewrite Forall_forall in Ht.
  exists t, rest; split; [reflexivity|]; split; [reflexivity|].
  split; [apply Hrowof; left; reflexivity|]; split; [|split].
  - intro Hx; apply Hnot; rewrite <- firstn_map in Hx; eapply in_firstn_in; exact Hx.
  - intros j q Hj; destruct (Hin j q Hj) as [E | E].
    + rewrite E; apply Qle_refl.
    + apply (ranked_before_le t (j, q)), Ht, E.
  - intros j q x Hj Hjt Hjs Hx.
    destruct (Hin j q Hj) as [E | E]; [rewrite E in Hjt; simpl in Hjt; congruence|].
    rewrite <- (firstn_skipn (Z.to_nat N) rest) in E, Hrest.
    apply in_app_or in E as [E | E].
    + exfalso; apply Hjs; change j with (fst (j, q)); apply in_map; exact E.
    + apply (ranked_before_le x (j, q)).
      eapply StronglySorted_app_rel; eassumption.
Qed.

Lemma recommend_top_scores_witness :
  recommend_ranked [mk_movie 1 "A"; mk_movie 2 "B"; mk_movie 3 "C"; mk_movie 4 "D"]
    [[1; 0.2; 0.7; 0.4]; [0.2; 1; 0; 0]; [0.7; 0; 1; 0]; [0.4; 0; 0; 1]]%Q "A" 2
    = Ok [(2%nat, 0.7%Q); (3%nat, 0.4%Q)] /\
  first_index_from 0 "A" [mk_movie 1 "A"; mk_movie 2 "B"; mk_movie 3 "C"; mk_movie 4 "D"]
    = Ok 0%nat /\
  nth_error [[1; 0.2; 0.7; 0.4]; [0.2; 1; 0; 0]; [0.7; 0; 1; 0]; [0.4; 0; 0; 1]]%Q 0
    = Some [1; 0.2; 0.7; 0.4]%Q /\
  [1; 0.2; 0.7; 0.4]%Q <> [] /\ (0 <= 2)%Z /\
  exists t rest,
    sort_desc (enumerate [1; 0.2; 0.7; 0.4]%Q) = t :: rest /\
    [(2%nat, 0.7%Q); (3%nat, 0.4%Q)] = firstn (Z.to_nat 2) rest /\
    nth_error [1; 0.2; 0.7; 0.4]%Q (fst t) = Some (snd t) /\
    ~ In (fst t) (map fst [(2%nat, 0.7%Q); (3%nat, 0.4%Q)]) /\
    (forall j q, nth_error [1; 0.2; 0.7; 0.4]%Q j = Some q -> (q <= snd t)%Q) /\
    (forall j q x, nth_error [1; 0.2; 0.7; 0.4]%Q j = Some q -> j <> fst t ->
       ~ In j (map fst [(2%nat, 0.7%Q); (3%nat, 0.4%Q)]) ->
       In x [(2%nat, 0.7%Q); (3%nat, 0.4%Q)] -> (q <= snd x)%Q).
Proof.
  assert (H : recommend_ranked [mk_movie 1 "A"; mk_movie 2 "B"; mk_movie 3 "C"; mk_movie 4 "D"]
    [[1; 0.2; 0.7; 0.4]; [0.2; 1; 0; 0]; [0.7; 0; 1; 0]; [0.4; 0; 0; 1]]%Q "A" 2
    = Ok [(2%nat, 0.7%Q); (3%nat, 0.4%Q)]) by reflexivity.
  assert (Hp : first_index_from 0 "A"
    [mk_movie 1 "A"; mk_movie 2 "B"; mk_movie 3 "C"; mk_movie 4 "D"] = Ok 0%nat)
    by reflexivity.
  assert (Hr : nth_error [[1; 0.2; 0.7; 0.4]; [0.2; 1; 0; 0]; [0.7; 0; 1; 0]; [0.4; 0; 0; 1]]%Q 0
    = Some [1; 0.2; 0.7; 0.4]%Q) by reflexivity.
  assert (Hne : [1; 0.2; 0.7; 0.4]%Q <> []) by discriminate.
  do 5 (split; [assumption || lia|]).
  exact (recommend_top_scores _ _ _ _ _ _ _ H Hp Hr Hne ltac:(lia)).
Defined.

Lemma py_slice_length : forall {A} (l : list A) a b,
  List.length (py_slice l a b)
  = Nat.min (slice_bound b (List.length l) - slice_bound a (List.length l))
            (List.length l - slice_bound a (List.length l)).
Proof.
  intros A l a b; unfold py_slice; rewrite length_firstn, length_skipn; reflexivity.
Qed.

(** X5: a count of [0] or [-1] gives no recommendation; a count [N <= -2]
    makes the slice end [N + 1] count from the end of the ranking, which
    gives [len(movies) + N] recommendations (none when that is negative). *)
Theorem recommend_nonpositive_count : forall movies similarity fmd ft movie p N,
  dims_ok movies similarity ->
  first_index_from 0 movie movies = Ok p ->
  (N <= 0)%Z ->
  exists res, recommend movies similarity fmd ft movie N = Ok res /\
    List.length res = (if (N <? -1)%Z
                       then Z.to_nat (Z.of_nat (List.length movies) + N)
                       else 0%nat).
Proof.
  intros movies similarity fmd ft movie p N Hdims Hp HN.
  destruct (recommend_ranked_row movies similarity movie p N Hdims Hp)
    as [row [Hrow [Hlen Hsel]]].
  pose proof (first_index_from_ok _ _ _ _ Hp) as [_ [m [Hm _]]].
  rewrite Nat.sub_0_r in Hm.
  assert (Hpl : (p < List.length movies)%nat) by (apply nth_error_Some; congruence).
  assert (HL : List.length (sort_desc (enumerate row)) = List.length movies).
  { rewrite (Permutation_length (sort_desc_perm _)); unfold enumerate.
    rewrite enumerate_from_length; exact Hlen. }
  destruct (recommend_of_ranked movies similarity fmd ft movie N _ Hsel) as [res [Hres Hf]].
  { intros x Hx; rewrite <- Hlen; apply nth_error_Some.
    rewrite (ranked_positions row 1 (N + 1) x Hx); discriminate. }
  exists res; split; [exact Hres|].
  rewrite <- (Forall2_length Hf), py_slice_length, HL.
  unfold slice_bound.
  destruct (Z.ltb_spec (N + 1) 0); destruct (Z.ltb_spec N (-1));
    change (1 <? 0)%Z with false; cbv iota; lia.
Qed.

Lemma recommend_nonpositive_count_witness :
  let ms := [mk_movie 1 "A"; mk_movie 2 "B"; mk_movie 3 "C"; mk_movie 4 "D"] in
  let sim := [[1; 0.2; 0.7; 0.4]; [0.2; 1; 0; 0]; [0.7; 0; 1; 0]; [0.4; 0; 0; 1]]%Q in
  dims_ok ms sim /\ first_index_from 0 "A" ms = Ok 0%nat /\ (-2 <= 0)%Z /\
  exists res, recommend ms sim (fun _ => mk_details "" "" RNA "") (fun _ => "")
                "A" (-2) = Ok res /\
    List.length res = (if (-2 <? -1)%Z
                       then Z.to_nat (Z.of_nat (List.length ms) + -2)
                       else 0%nat).
Proof.
  intros ms sim.
  assert (Hd : dims_ok ms sim) by (split; [reflexivity | repeat constructor]).
  assert (Hp : first_index_from 0 "A" ms = Ok 0%nat) by reflexivity.
  split; [exact Hd|]; split; [exact Hp|]; split; [lia|].
  exact (recommend_nonpositive_count ms sim _ _ "A" 0 (-2) Hd Hp ltac:(lia)).
Defined.

Section FilterScan.

Variable lower : string -> string.
Variable fmd : Z -> details.
Variable ft : Z -> string.
Variable genre cast : string.
Variable min_rating : Q.
Variable N : Z.

Local Abbreviation mt := (matches_movie lower fmd genre cast min_rating).
Local Abbreviation loop := (filter_loop lower fmd ft genre cast min_rating N).

(** With fewer matches left than the quota still open, the loop scans
    every remaining position. *)
Lemma filter_loop_trace_all : forall ms i matched,
  (List.length matched + List.length (filter mt ms) < Nat.max 1 (Z.to_nat N))%nat ->
  snd (loop ms i matched) = seq i (List.length ms).
Proof.
  intros ms; induction ms as [| m rest IH]; intros i matched H; [reflexivity|].
  rewrite filter_loop_cons; simpl filter in H.
  destruct (mt m).
  - cbv zeta; simpl List.length in H.
    destruct (N <=? _)%Z eqn:E.
    + apply Z.leb_le in E; rewrite length_app in E; simpl in E; lia.
    + pose proof (IH (S i) (matched ++ [movie_result fmd ft m])%list) as H'.
      destruct (loop rest (S i) _) as [res tr]; cbn [snd List.length seq] in H' |- *.
      f_equal; apply H'; rewrite length_app; cbn [List.length]; lia.
  - pose proof (IH (S i) matched H) as H'.
    destruct (loop rest (S i) matched) as [res tr]; cbn [snd List.length seq] in H' |- *; f_equal; exact H'.
Qed.

(** The loop stops right after the match that fills the quota. *)
Lemma filter_loop_trace_stop : forall ms i matched j m,
  (List.length matched < Nat.max 1 (Z.to_nat N))%nat ->
  nth_error ms j = Some m -> mt m = true ->
  (List.length matched + List.length (filter mt (firstn (S j) ms))
    = Nat.max 1 (Z.to_nat N))%nat ->
  snd (loop ms i matched) = seq i (S j).
Proof.
  intros ms; induction ms as [| m0 rest IH]; intros i matched j m Hq Hj Hm Hc;
    [destruct j; discriminate|].
  assert (Hpos : forall j' m', nth_error rest j' = Some m' -> mt m' = true ->
            (1 <= List.length (filter mt (firstn (S j') rest)))%nat).
  { intros j' m' Hj' Hm'.
    destruct (filter mt (firstn (S j') rest)) eqn:E; [|simpl; lia].
    assert (Hin : In m' (filter mt (firstn (S j') rest)))
      by (apply filter_In; split; [apply nth_error_in_firstn; exact Hj' | exact Hm']).
    rewrite E in Hin; contradiction. }
  rewrite filter_loop_cons.
  destruct (mt m0) eqn:Em0.
  - cbv zeta. destruct j as [| j].
    + cbn [firstn filter] in Hc; rewrite Em0 in Hc; cbn [List.length filter] in Hc.
      destruct (N <=? _)%Z eqn:E; [reflexivity|].
      apply Z.leb_gt in E; rewrite length_app in E; simpl in E; lia.
    + cbn [nth_error] in Hj.
      change (firstn (S (S j)) (m0 :: rest)) with (m0 :: firstn (S j) rest) in Hc.
      cbn [filter] in Hc; rewrite Em0 in Hc;
      cbn [List.length] in Hc.
      specialize (Hpos j m Hj Hm).
      destruct (N <=? _)%Z eqn:E.
      * apply Z.leb_le in E; rewrite length_app in E; simpl in E; lia.
      * pose proof (IH (S i) (matched ++ [movie_result fmd ft m0])%list j m) as H'.
        destruct (loop rest (S i) _) as [res tr]; cbn [snd List.length seq] in H' |- *.
        f_equal; apply H'; [rewrite length_app; cbn [List.length]; lia | exact Hj | exact Hm |].
        rewrite length_app; cbn [List.length]; lia.
  - destruct j as [| j]; [simpl in Hj; inversion Hj; subst; congruence|].
    cbn [nth_error] in Hj.
    change (firstn (S (S j)) (m0 :: rest)) with (m0 :: firstn (S j) rest) in Hc.
    cbn [filter] in Hc; rewrite Em0 in Hc.
    pose proof (IH (S i) matched j m Hq Hj Hm Hc) as H'.
    destruct (loop rest (S i) matched) as [res tr]; cbn [snd List.length seq] in H' |- *; f_equal; exact H'.
Qed.

End FilterScan.

(** X6: when the catalog holds fewer matches than the quota
    [max(1, num_results)], the scan visits every catalog position, in
    order, and returns every match. *)
Theorem filter_full_scan : forall lower movies fmd ft genre cast min_rating N,
  (count_matches lower movies fmd genre cast min_rating (List.length movies)
     < Nat.max 1 (Z.to_nat N))%nat ->
  snd (filter_movies_by_criteria_traced lower movies fmd ft genre cast min_rating N)
    = seq 0 (List.length movies) /\
  filter_movies_by_criteria lower movies fmd ft genre cast min_rating N
    = map (movie_result fmd ft) (filter (matches_movie lower fmd genre cast min_rating) movies).
Proof.
  intros lower movies fmd ft genre cast min_rating N H.
  unfold count_matches in H; rewrite firstn_all in H.
  split.
  - unfold filter_movies_by_criteria_traced; apply filter_loop_trace_all; simpl; exact H.
  - rewrite filter_result_eq, firstn_all2 by lia; reflexivity.
Qed.

Lemma filter_full_scan_witness :
  (count_matches ascii_lower [mk_movie 1 "A"; mk_movie 2 "B"; mk_movie 3 "C"]
     (fun i => mk_details "p" (if (i =? 2)%Z then "Drama" else "Comedy") (RNum 6) "X")
     "drama" "" 5 3 < Nat.max 1 (Z.to_nat 3))%nat /\
  snd (filter_movies_by_criteria_traced ascii_lower [mk_movie 1 "A"; mk_movie 2 "B"; mk_movie 3 "C"]
     (fun i => mk_details "p" (if (i =? 2)%Z then "Drama" else "Comedy") (RNum 6) "X")
     (fun _ => "t") "drama" "" 5 3) = seq 0 3 /\
  filter_movies_by_criteria ascii_lower [mk_movie 1 "A"; mk_movie 2 "B"; mk_movie 3 "C"]
     (fun i => mk_details "p" (if (i =? 2)%Z then "Drama" else "Comedy") (RNum 6) "X")
     (fun _ => "t") "drama" "" 5 3
  = map (movie_result
           (fun i => mk_details "p" (if (i =? 2)%Z then "Drama" else "Comedy") (RNum 6) "X")
           (fun _ => "t"))
        (filter (matches_movie ascii_lower
           (fun i => mk_details "p" (if (i =? 2)%Z then "Drama" else "Comedy") (RNum 6) "X")
           "drama" "" 5) [mk_movie 1 "A"; mk_movie 2 "B"; mk_movie 3 "C"]).
Proof.
  assert (H : (count_matches ascii_lower [mk_movie 1 "A"; mk_movie 2 "B"; mk_movie 3 "C"]
     (fun i => mk_details "p" (if (i =? 2)%Z then "Drama" else "Comedy") (RNum 6) "X")
     "drama" "" 5 3 < Nat.max 1 (Z.to_nat 3))%nat) by (vm_compute; lia).
  split; [exact H|].
  exact (filter_full_scan ascii_lower [mk_movie 1 "A"; mk_movie 2 "B"; mk_movie 3 "C"] _
           (fun _ => "t") "drama" "" 5 3 H).
Defined.

(** X7: the scan stops exactly at the match that fills the quota
    [max(1, num_results)]: when that match is at position [p], the scanned
    positions are [0, 1, ..., p], so [fetch_movie_details] and
    [fetch_trailer] are called for these movies only. *)
Theorem filter_scan_stops : forall lower movies fmd ft genre cast min_rating N p,
  is_match lower movies fmd genre cast min_rating p = true ->
  count_matches lower movies fmd genre cast min_rating (S p) = Nat.max 1 (Z.to_nat N) :> nat ->
  snd (filter_movies_by_criteria_traced lower movies fmd ft genre cast min_rating N)
    = seq 0 (S p).
Proof.
  intros lower movies fmd ft genre cast min_rating N p Hp Hc.
  unfold is_match in Hp; destruct (nth_error movies p) as [m|] eqn:Hm; [|discriminate].
  unfold filter_movies_by_criteria_traced.
  apply (filter_loop_trace_stop lower fmd ft genre cast min_rating N movies 0 [] p m);
    [cbn [List.length]; lia | exact Hm | exact Hp | exact Hc].
Qed.

Lemma filter_scan_stops_witness :
  is_match ascii_lower [mk_movie 1 "A"; mk_movie 2 "B"; mk_movie 3 "C"]
     (fun _ => mk_details "p" "Drama" (RNum 6) "X") "drama" "" 5 1 = true /\
  count_matches ascii_lower [mk_movie 1 "A"; mk_movie 2 "B"; mk_movie 3 "C"]
     (fun _ => mk_details "p" "Drama" (RNum 6) "X") "drama" "" 5 2
     = Nat.max 1 (Z.to_nat 2) /\
  snd (filter_movies_by_criteria_traced ascii_lower [mk_movie 1 "A"; mk_movie 2 "B"; mk_movie 3 "C"]
     (fun _ => mk_details "p" "Drama" (RNum 6) "X") (fun _ => "t") "drama" "" 5 2)
    = seq 0 2.
Proof.
  assert (H1 : is_match ascii_lower [mk_movie 1 "A"; mk_movie 2 "B"; mk_movie 3 "C"]
     (fun _ => mk_details "p" "Drama" (RNum 6) "X") "drama" "" 5 1 = true)
    by reflexivity.
  assert (H2 : count_matches ascii_lower [mk_movie 1 "A"; mk_movie 2 "B"; mk_movie 3 "C"]
     (fun _ => mk_details "p" "Drama" (RNum 6) "X") "drama" "" 5 2
     = Nat.max 1 (Z.to_nat 2)) by reflexivity.
  split; [exact H1|]; split; [exact H2|].
  exact (filter_scan_stops ascii_lower _ _ (fun _ => "t") _ _ _ 2 1 H1 H2).
Defined.

(** X8: the results are monotone in the requested count: for [N <= M], the
    results for [N] are a prefix of the results for [M]. *)
Theorem filter_prefix : forall lower movies fmd ft genre cast min_rating N M,
  (N <= M)%Z ->
  exists s, filter_movies_by_criteria lower movies fmd ft genre cast min_rating M
    = (filter_movies_by_criteria lower movies fmd ft genre cast min_rating N ++ s)%list.
Proof.
  intros lower movies fmd ft genre cast min_rating N M H.
  rewrite !filter_result_eq.
  destruct (firstn_prefix (filter (matches_movie lower fmd genre cast min_rating) movies)
              (Nat.max 1 (Z.to_nat N)) (Nat.max 1 (Z.to_nat M))) as [s Hs]; [lia|].
  exists (map (movie_result fmd ft) s); rewrite Hs, map_app; reflexivity.
Qed.

Lemma filter_prefix_witness :
  (2 <= 3)%Z /\
  exists s, filter_movies_by_criteria ascii_lower [mk_movie 1 "A"; mk_movie 2 "B"; mk_movie 3 "C"]
       (fun _ => mk_details "p" "Drama" (RNum 6) "X") (fun _ => "t") "" "" 5 3
    = (filter_movies_by_criteria ascii_lower [mk_movie 1 "A"; mk_movie 2 "B"; mk_movie 3 "C"]
       (fun _ => mk_details "p" "Drama" (RNum 6) "X") (fun _ => "t") "" "" 5 2 ++ s)%list.
Proof.
  split; [lia|]; apply filter_prefix; lia.
Defined.

(** X9: when [str.lower] is idempotent on the genre and cast criteria,
    lower-casing them beforehand changes neither the results nor the
    scanned positions: matching only sees [genre.lower()] and
    [cast.lower()]. *)
Theorem filter_case_insensitive : forall lower movies fmd ft genre cast min_rating N,
  lower (lower genre) = lower genre -> lower (lower cast) = lower cast ->
  filter_movies_by_criteria_traced lower movies fmd ft genre cast min_rating N
  = filter_movies_by_criteria_traced lower movies fmd ft (lower genre) (lower cast) min_rating N.
Proof.
  intros lower movies fmd ft genre cast min_rating N Hg Hc.
  unfold filter_movies_by_criteria_traced; generalize 0%nat (@nil result).
  induction movies as [| m rest IH]; intros i matched; [reflexivity|].
  simpl; rewrite Hg, Hc, !IH; reflexivity.
Qed.

Lemma filter_case_insensitive_witness :
  ascii_lower (ascii_lower "DRAMA") = ascii_lower "DRAMA" /\
  ascii_lower (ascii_lower "Tom") = ascii_lower "Tom" /\
  filter_movies_by_criteria_traced ascii_lower [mk_movie 1 "A"; mk_movie 2 "B"]
    (fun _ => mk_details "p" "Drama" (RNum 6) "Tom Hanks") (fun _ => "t") "DRAMA" "Tom" 5 1
  = filter_movies_by_criteria_traced ascii_lower [mk_movie 1 "A"; mk_movie 2 "B"]
    (fun _ => mk_details "p" "Drama" (RNum 6) "Tom Hanks") (fun _ => "t")
    (ascii_lower "DRAMA") (ascii_lower "Tom") 5 1.
Proof.
  assert (Hg : ascii_lower (ascii_lower "DRAMA") = ascii_lower "DRAMA") by reflexivity.
  assert (Hc : ascii_lower (ascii_lower "Tom") = ascii_lower "Tom") by reflexivity.
  split; [exact Hg|]; split; [exact Hc|].
  exact (filter_case_insensitive ascii_lower _ _ _ "DRAMA" "Tom" 5 1 Hg Hc).
Defined.

Lemma scan_videos_form : forall py_repr vs url,
  Trailer.scan_videos py_repr vs = Ok url ->
  url = Trailer.fallback \/ exists key, url = ("https://www.youtube.com/watch?v=" ++ key)%string.
Proof.
  intros py_repr; induction vs as [| v t IH]; simpl; intros url H.
  - inversion H; left; reflexivity.
  - destruct (Trailer.subscript v "type") as [ty|]; simpl in H; [|discriminate].
    destruct (Trailer.eq_str ty "Trailer"); [|apply IH; exact H].
    destruct (Trailer.subscript v "site") as [site|]; simpl in H; [|discriminate].
    destruct (Trailer.eq_str site "YouTube"); [|apply IH; exact H].
    destruct (Trailer.subscript v "key") as [key|]; simpl in H; [|discriminate].
    inversion H; right; eexists; reflexivity.
Qed.

(** X10: [fetch_trailer] returns either the fallback ["https://youtube.com"]
    or a YouTube watch URL ["https://www.youtube.com/watch?v=..."], whatever
    the response (failed request, malformed or unexpected JSON). *)
Theorem fetch_trailer_form : forall py_repr response,
  Trailer.fetch_trailer py_repr response = "https://youtube.com"%string \/
  exists key, Trailer.fetch_trailer py_repr response
              = ("https://www.youtube.com/watch?v=" ++ key)%string.
Proof.
  intros py_repr response; unfold Trailer.fetch_trailer.
  destruct response as [data|]; simpl; [|left; reflexivity].
  destruct (Trailer.py_get data "results" (Trailer.JArr [])) as [results|]; simpl;
    [|left; reflexivity].
  destruct (Trailer.iter_items results) as [vs|]; simpl; [|left; reflexivity].
  destruct (Trailer.scan_videos py_repr vs) as [url|] eqn:E; [|left; reflexivity].
  apply scan_videos_form in E; exact E.
Qed.

Lemma bind_ok_l : forall {A B} (a : A) (k : A -> outcome B), bind (Ok a) k = k a.
Proof. reflexivity. Qed.

Lemma bind_ok_inv : forall {A B} (m : outcome A) (k : A -> outcome B) y,
  bind m k = Ok y -> exists x, m = Ok x /\ k x = Ok y.
Proof. intros A B [x|e] k y H; simpl in H; [exists x; split; [reflexivity | exact H] | discriminate]. Qed.

Lemma map_m_raise : forall {A B} (f : A -> outcome B) l k x e ys,
  nth_error l k = Some x -> f x = Raise e -> map_m f l <> Ok ys.
Proof.
  intros A B f l; induction l as [| y t IH]; intros k x e ys Hk Hx H;
    [destruct k; discriminate|].
  simpl in H; destruct k as [| k]; simpl in Hk.
  - inversion Hk; subst; rewrite Hx in H; discriminate.
  - destruct (f y); simpl in H; [|discriminate].
    pose proof (IH k x e) as IH'.
    destruct (map_m f t) as [ys'|]; simpl in H; [|discriminate].
    exact (IH' ys' Hk Hx eq_refl).
Qed.

Lemma map_m_names : forall items names,
  Forall2 (fun c s => Trailer.subscript c "name" = Ok (Trailer.JStr s)) items names ->
  map_m (fun c => Trailer.subscript c "name") items = Ok (map Trailer.JStr names).
Proof.
  intros items names H; induction H as [| c s t ns Hc _ IH]; [reflexivity|].
  simpl; rewrite Hc, IH; reflexivity.
Qed.

Lemma py_join_strs : forall sep names,
  Details.py_join sep (map Trailer.JStr names) = Ok (Trailer.join sep names).
Proof.
  intros sep names; unfold Details.py_join.
  assert (H : map_m (fun j => match j with Trailer.JStr s => Ok s | _ => Raise TypeError end)
                (map Trailer.JStr names) = Ok names)
    by (induction names as [| n t IH]; simpl; [reflexivity | rewrite IH; reflexivity]).
  rewrite H; reflexivity.
Qed.

Ltac bind_step H x Hx := apply bind_ok_inv in H as [x [Hx H]]; cbv beta in H.

(** X11: the comprehension over the cast is evaluated in full before the
    [[:5]] slice, so a cast entry without a ["name"] field, at any position
    (also after the fifth), makes [fetch_movie_details] return the error
    tuple. *)
Theorem details_cast_entry_error : forall py_repr kvs ckvs citems k c e,
  Trailer.dict_get kvs "credits" = Some (Trailer.JObj ckvs) ->
  Trailer.dict_get ckvs "cast" = Some (Trailer.JArr citems) ->
  nth_error citems k = Some c ->
  Trailer.subscript c "name" = Raise e ->
  Details.fetch_movie_details py_repr (Ok (Trailer.JObj kvs)) = Details.error_details.
Proof.
  intros py_repr kvs ckvs citems k c e Hcr Hca Hk Hc.
  unfold Details.fetch_movie_details.
  match goal with |- match ?E with _ => _ end = _ => destruct E as [t|e'] eqn:HE end;
    [exfalso | reflexivity].
  bind_step HE data Hdata; inversion Hdata; subst data.
  bind_step HE pp Hpp; bind_step HE poster Hposter; bind_step HE gs Hgs.
  bind_step HE gitems Hgitems; bind_step HE gnames Hgnames.
  bind_step HE gjoined Hgjoined; bind_step HE rt Hrt.
  bind_step HE credits Hcredits; simpl in Hcredits; rewrite Hcr in Hcredits.
  inversion Hcredits; subst credits.
  bind_step HE cs Hcs; simpl in Hcs; rewrite Hca in Hcs; inversion Hcs; subst cs.
  bind_step HE its Hits; simpl in Hits; inversion Hits; subst its.
  bind_step HE cast_list Hcast_list.
  exact (map_m_raise _ _ k c e _ Hk Hc Hcast_list).
Qed.

Lemma details_cast_entry_error_witness :
  Trailer.dict_get [("credits", Trailer.JObj [("cast", Trailer.JArr
      [Trailer.JObj [("name", Trailer.JStr "a")]; Trailer.JObj []])])] "credits"
    = Some (Trailer.JObj [("cast", Trailer.JArr
      [Trailer.JObj [("name", Trailer.JStr "a")]; Trailer.JObj []])]) /\
  Trailer.dict_get [("cast", Trailer.JArr
      [Trailer.JObj [("name", Trailer.JStr "a")]; Trailer.JObj []])] "cast"
    = Some (Trailer.JArr [Trailer.JObj [("name", Trailer.JStr "a")]; Trailer.JObj []]) /\
  nth_error [Trailer.JObj [("name", Trailer.JStr "a")]; Trailer.JObj []] 1
    = Some (Trailer.JObj []) /\
  Trailer.subscript (Trailer.JObj []) "name" = Raise KeyError /\
  Details.fetch_movie_details (fun _ => EmptyString) (Ok (Trailer.JObj [("credits", Trailer.JObj [("cast",
      Trailer.JArr [Trailer.JObj [("name", Trailer.JStr "a")]; Trailer.JObj []])])]))
    = Details.error_details.
Proof.
  assert (H1 : Trailer.dict_get [("credits", Trailer.JObj [("cast", Trailer.JArr
      [Trailer.JObj [("name", Trailer.JStr "a")]; Trailer.JObj []])])] "credits"
    = Some (Trailer.JObj [("cast", Trailer.JArr
      [Trailer.JObj [("name", Trailer.JStr "a")]; Trailer.JObj []])])) by reflexivity.
  assert (H2 : Trailer.dict_get [("cast", Trailer.JArr
      [Trailer.JObj [("name", Trailer.JStr "a")]; Trailer.JObj []])] "cast"
    = Some (Trailer.JArr [Trailer.JObj [("name", Trailer.JStr "a")]; Trailer.JObj []]))
    by reflexivity.
  assert (H3 : nth_error [Trailer.JObj [("name", Trailer.JStr "a")]; Trailer.JObj []] 1
    = Some (Trailer.JObj [])) by reflexivity.
  assert (H4 : Trailer.subscript (Trailer.JObj []) "name" = Raise KeyError) by reflexivity.
  split; [exact H1|]; split; [exact H2|]; split; [exact H3|]; split; [exact H4|].
  exact (details_cast_entry_error (fun _ => EmptyString) _ _ _ 1 _ KeyError H1 H2 H3 H4).
Defined.

(** X12: on a response object whose genre and cast entries all carry a
    string ["name"], [fetch_movie_details] returns the poster URL (the
    placeholder when ["poster_path"] is missing or falsy), the genre names
    joined by [", "], ["vote_average"] (['N/A'] when missing) and the first
    five cast names joined by [", "]; a missing ["genres"], ["credits"] or
    ["cast"] field counts as empty. *)
Theorem details_well_formed : forall py_repr kvs gitems gnames credits citems cnames,
  Trailer.py_get (Trailer.JObj kvs) "genres" (Trailer.JArr []) = Ok (Trailer.JArr gitems) ->
  Forall2 (fun g s => Trailer.subscript g "name" = Ok (Trailer.JStr s)) gitems gnames ->
  Trailer.py_get (Trailer.JObj kvs) "credits" (Trailer.JObj []) = Ok credits ->
  Trailer.py_get credits "cast" (Trailer.JArr []) = Ok (Trailer.JArr citems) ->
  Forall2 (fun c s => Trailer.subscript c "name" = Ok (Trailer.JStr s)) citems cnames ->
  Details.fetch_movie_details py_repr (Ok (Trailer.JObj kvs)) =
  (match Trailer.dict_get kvs "poster_path" with
   | Some p => if Details.py_truthy p
               then (Details.image_base ++ Trailer.py_str py_repr p)%string
               else Details.no_image
   | None => Details.no_image
   end,
   Trailer.join ", " gnames,
   match Trailer.dict_get kvs "vote_average" with
   | Some r => r
   | None => Trailer.JStr "N/A"
   end,
   Trailer.join ", " (firstn 5 cnames)).
Proof.
  intros py_repr kvs gitems gnames credits citems cnames Hg Hgn Hcr Hca Hcn.
  unfold Details.fetch_movie_details.
  rewrite bind_ok_l; cbv beta.
  assert (Epp : Trailer.py_get (Trailer.JObj kvs) "poster_path" Trailer.JNull
                = Ok (match Trailer.dict_get kvs "poster_path" with
                      | Some v => v | None => Trailer.JNull end))
    by (simpl; destruct (Trailer.dict_get kvs "poster_path"); reflexivity).
  rewrite Epp, bind_ok_l; cbv beta.
  assert (Epo : (if Details.py_truthy (match Trailer.dict_get kvs "poster_path" with
                                       | Some v => v | None => Trailer.JNull end)
                 then p <- Trailer.subscript (Trailer.JObj kvs) "poster_path" ;;
                      Ok (Details.image_base ++ Trailer.py_str py_repr p)%string
                 else Ok Details.no_image)
                = Ok (match Trailer.dict_get kvs "poster_path" with
                      | Some p => if Details.py_truthy p
                                  then (Details.image_base ++ Trailer.py_str py_repr p)%string
                                  else Details.no_image
                      | None => Details.no_image
                      end)).
  { destruct (Trailer.dict_get kvs "poster_path") as [p|] eqn:Hp; [|reflexivity].
    destruct (Details.py_truthy p); [|reflexivity].
    simpl; rewrite Hp; reflexivity. }
  rewrite Epo, bind_ok_l; cbv beta.
  rewrite Hg, bind_ok_l; cbv beta.
  change (Trailer.iter_items (Trailer.JArr gitems)) with (Ok (A := list Trailer.json) gitems).
  rewrite bind_ok_l; cbv beta.
  rewrite (map_m_names _ _ Hgn), bind_ok_l; cbv beta.
  rewrite py_join_strs, bind_ok_l; cbv beta.
  assert (Ert : Trailer.py_get (Trailer.JObj kvs) "vote_average" (Trailer.JStr "N/A")
                = Ok (match Trailer.dict_get kvs "vote_average" with
                      | Some r => r | None => Trailer.JStr "N/A" end))
    by (simpl; destruct (Trailer.dict_get kvs "vote_average"); reflexivity).
  rewrite Ert, bind_ok_l; cbv beta.
  rewrite Hcr, bind_ok_l; cbv beta.
  rewrite Hca, bind_ok_l; cbv beta.
  change (Trailer.iter_items (Trailer.JArr citems)) with (Ok (A := list Trailer.json) citems).
  rewrite bind_ok_l; cbv beta.
  rewrite (map_m_names _ _ Hcn), bind_ok_l; cbv beta.
  rewrite firstn_map, py_join_strs, bind_ok_l; reflexivity.
Qed.

Lemma details_well_formed_witness :
  let kvs := [("poster_path", Trailer.JStr "/x.jpg");
              ("genres", Trailer.JArr [Trailer.JObj [("id", Trailer.JNum 18);
                                                     ("name", Trailer.JStr "Drama")]]);
              ("vote_average", Trailer.JFloat (79 # 10));
              ("popularity", Trailer.JFloat (61417 # 1000));
              ("credits", Trailer.JObj [("cast", Trailer.JArr
                 (map (fun s => Trailer.JObj [("name", Trailer.JStr s)])
                      ["a"; "b"; "c"; "d"; "e"; "f"]))])]%string in
  Trailer.py_get (Trailer.JObj kvs) "genres" (Trailer.JArr [])
    = Ok (Trailer.JArr [Trailer.JObj [("id", Trailer.JNum 18);
                                      ("name", Trailer.JStr "Drama")]]) /\
  Forall2 (fun g s => Trailer.subscript g "name" = Ok (Trailer.JStr s))
    [Trailer.JObj [("id", Trailer.JNum 18); ("name", Trailer.JStr "Drama")]] ["Drama"%string] /\
  Trailer.py_get (Trailer.JObj kvs) "credits" (Trailer.JObj [])
    = Ok (Trailer.JObj [("cast", Trailer.JArr
            (map (fun s => Trailer.JObj [("name", Trailer.JStr s)])
                 ["a"; "b"; "c"; "d"; "e"; "f"]%string))]) /\
  Trailer.py_get (Trailer.JObj [("cast", Trailer.JArr
            (map (fun s => Trailer.JObj [("name", Trailer.JStr s)])
                 ["a"; "b"; "c"; "d"; "e"; "f"]%string))]) "cast" (Trailer.JArr [])
    = Ok (Trailer.JArr (map (fun s => Trailer.JObj [("name", Trailer.JStr s)])
                            ["a"; "b"; "c"; "d"; "e"; "f"]%string)) /\
  Forall2 (fun c s => Trailer.subscript c "name" = Ok (Trailer.JStr s))
    (map (fun s => Trailer.JObj [("name", Trailer.JStr s)]) ["a"; "b"; "c"; "d"; "e"; "f"]%string)
    ["a"; "b"; "c"; "d"; "e"; "f"]%string /\
  Details.fetch_movie_details (fun _ => EmptyString) (Ok (Trailer.JObj kvs)) =
  ("https://image.tmdb.org/t/p/w500//x.jpg", "Drama", Trailer.JFloat (79 # 10),
   "a, b, c, d, e")%string.
Proof.
  intros kvs.
  assert (H1 : Trailer.py_get (Trailer.JObj kvs) "genres" (Trailer.JArr [])
    = Ok (Trailer.JArr [Trailer.JObj [("id", Trailer.JNum 18);
                                      ("name", Trailer.JStr "Drama")]])) by reflexivity.
  assert (H2 : Forall2 (fun g s => Trailer.subscript g "name" = Ok (Trailer.JStr s))
    [Trailer.JObj [("id", Trailer.JNum 18); ("name", Trailer.JStr "Drama")]] ["Drama"%string])
    by (repeat constructor).
  assert (H3 : Trailer.py_get (Trailer.JObj kvs) "credits" (Trailer.JObj [])
    = Ok (Trailer.JObj [("cast", Trailer.JArr
            (map (fun s => Trailer.JObj [("name", Trailer.JStr s)])
                 ["a"; "b"; "c"; "d"; "e"; "f"]%string))])) by reflexivity.
  assert (H4 : Trailer.py_get (Trailer.JObj [("cast", Trailer.JArr
            (map (fun s => Trailer.JObj [("name", Trailer.JStr s)])
                 ["a"; "b"; "c"; "d"; "e"; "f"]%string))]) "cast" (Trailer.JArr [])
    = Ok (Trailer.JArr (map (fun s => Trailer.JObj [("name", Trailer.JStr s)])
                            ["a"; "b"; "c"; "d"; "e"; "f"]%string))) by reflexivity.
  assert (H5 : Forall2 (fun c s => Trailer.subscript c "name" = Ok (Trailer.JStr s))
    (map (fun s => Trailer.JObj [("name", Trailer.JStr s)]) ["a"; "b"; "c"; "d"; "e"; "f"]%string)
    ["a"; "b"; "c"; "d"; "e"; "f"]%string) by (repeat constructor).
  split; [exact H1|]; split; [exact H2|]; split; [exact H3|]; split; [exact H4|].
  split; [exact H5|].
  rewrite (details_well_formed (fun _ => EmptyString) kvs _ _ _ _ _ H1 H2 H3 H4 H5); reflexivity.
Defined.

(** X13: filtering a catalog [ms1 ++ ms2] with [num_results >= 1]: when
    [ms1] holds [k < num_results] matches, the results are those of [ms1]
    followed by those of [ms2] for the remaining count [num_results - k];
    otherwise they are the results of [ms1] alone. *)
Theorem filter_append : forall lower ms1 ms2 fmd ft genre cast min_rating N,
  (1 <= N)%Z ->
  let k := List.length (filter (matches_movie lower fmd genre cast min_rating) ms1) in
  filter_movies_by_criteria lower (ms1 ++ ms2) fmd ft genre cast min_rating N =
  if (Z.of_nat k <? N)%Z
  then (filter_movies_by_criteria lower ms1 fmd ft genre cast min_rating N ++
        filter_movies_by_criteria lower ms2 fmd ft genre cast min_rating (N - Z.of_nat k))%list
  else filter_movies_by_criteria lower ms1 fmd ft genre cast min_rating N.
Proof.
  intros lower ms1 ms2 fmd ft genre cast min_rating N HN k.
  rewrite !filter_result_eq, filter_app, firstn_app.
  fold k; destruct (Z.ltb_spec (Z.of_nat k) N) as [Hk | Hk].
  - rewrite map_app.
    replace (Nat.max 1 (Z.to_nat (N - Z.of_nat k))) with (Nat.max 1 (Z.to_nat N) - k)%nat
      by lia.
    reflexivity.
  - replace (Nat.max 1 (Z.to_nat N) - k)%nat with 0%nat by lia.
    rewrite firstn_O, app_nil_r; reflexivity.
Qed.

Lemma filter_append_witness :
  (1 <= 3)%Z /\
  filter_movies_by_criteria ascii_lower ([mk_movie 1 "A"] ++ [mk_movie 2 "B"; mk_movie 3 "C"])
    (fun _ => mk_details "p" "Drama" (RNum 6) "X") (fun _ => "t") "" "" 5 3 =
  (let k := List.length (filter (matches_movie ascii_lower
              (fun _ => mk_details "p" "Drama" (RNum 6) "X") "" "" 5) [mk_movie 1 "A"]) in
   if (Z.of_nat k <? 3)%Z
   then (filter_movies_by_criteria ascii_lower [mk_movie 1 "A"]
           (fun _ => mk_details "p" "Drama" (RNum 6) "X") (fun _ => "t") "" "" 5 3 ++
         filter_movies_by_criteria ascii_lower [mk_movie 2 "B"; mk_movie 3 "C"]
           (fun _ => mk_details "p" "Drama" (RNum 6) "X") (fun _ => "t") "" "" 5
           (3 - Z.of_nat k))%list
   else filter_movies_by_criteria ascii_lower [mk_movie 1 "A"]
           (fun _ => mk_details "p" "Drama" (RNum 6) "X") (fun _ => "t") "" "" 5 3).
Proof.
  split; [lia|].
  exact (filter_append ascii_lower [mk_movie 1 "A"] [mk_movie 2 "B"; mk_movie 3 "C"]
           (fun _ => mk_details "p" "Drama" (RNum 6) "X") (fun _ => "t") "" "" 5 3
           ltac:(lia)).
Defined.
